(** * web3.py persistent IPC provider: a shallow embedding

    This development embeds [web3/providers/persistent/async_ipc.py]
    (class [AsyncIPCProvider]) and the subscription iterator of
    [web3/main.py] (class [_PersistentConnectionWeb3]) and checks the
    statements of the design document against them.

    Conventions.
    - A Python [str] is kept in its UTF-8 encoded form, as a [string] of
      bytes.  All characters with a meaning for JSON or for [str.lstrip]
      are recognised on that encoding, and every index computed by the
      decoder falls on a character boundary, so slicing agrees with Python.
    - Coroutines are functions on an explicit [World]; what the operating
      system and the peer do is read from an [Env] of oracles, indexed by
      the number of the call or of the suspension.
    - Loops that Python may run forever take a [fuel] argument and answer
      [OutOfFuel] when it is used up. *)

From Stdlib Require Import ZArith QArith String Ascii List Floats.
From Stdlib Require DecimalString.
From stdpp Require Import gmap strings list.

Local Open Scope Z_scope.

(** ** Text *)

Module Text.

Definition code (c : ascii) : N := N_of_ascii c.

Definition in_range (lo hi : N) (c : ascii) : bool :=
  ((lo <=? code c) && (code c <=? hi))%N.

(** [str.isspace] on the characters below U+0080: TAB..CR, FS..US, SPACE. *)
Definition is_space_ascii (c : ascii) : bool :=
  in_range 9 13 c || in_range 28 32 c.

(** [str.lstrip()] with no argument: drops leading characters for which
    [str.isspace] holds.  The characters above U+007F with that property are
    U+0085, U+00A0, U+1680, U+2000..U+200A, U+2028, U+2029, U+202F, U+205F and
    U+3000, spelled here in UTF-8. *)
Fixpoint lstrip (s : string) : string :=
  match s with
  | String c r =>
      if is_space_ascii c then lstrip r
      else match r with
           | String c1 r1 =>
               if (code c =? 194)%N && ((code c1 =? 133)%N || (code c1 =? 160)%N)
               then lstrip r1
               else match r1 with
                    | String c2 r2 =>
                        if ((code c =? 225)%N && (code c1 =? 154)%N && (code c2 =? 128)%N)
                           || ((code c =? 226)%N && (code c1 =? 128)%N
                               && (in_range 128 138 c2 || in_range 168 169 c2
                                   || (code c2 =? 175)%N))
                           || ((code c =? 226)%N && (code c1 =? 129)%N && (code c2 =? 159)%N)
                           || ((code c =? 227)%N && (code c1 =? 128)%N && (code c2 =? 128)%N)
                        then lstrip r2
                        else s
                    | EmptyString => s
                    end
           | EmptyString => s
           end
  | EmptyString => EmptyString
  end.

(** [s[n:]] for [0 <= n]. *)
Fixpoint drop (n : nat) (s : string) : string :=
  match n, s with
  | O, _ => s
  | S n', String _ r => drop n' r
  | S _, EmptyString => EmptyString
  end.

(** Writing aid: the text with every apostrophe turned into a double quote,
    so that JSON can be spelled as ['{"id": 1}'] is in Python. *)
Fixpoint dq (s : string) : string :=
  match s with
  | EmptyString => EmptyString
  | String c r => String (if (code c =? 39)%N then ascii_of_N 34 else c) (dq r)
  end.

(** Well-formed UTF-8 (Unicode, table 3-7): what [bytes.decode("utf-8")]
    accepts.  [pending] is the number of continuation bytes still owed and
    [lo], [hi] bound the next one. *)
Fixpoint utf8_scan (pending : nat) (lo hi : N) (s : string) : bool :=
  match s with
  | EmptyString => match pending with O => true | S _ => false end
  | String c r =>
      match pending with
      | S p => in_range lo hi c && utf8_scan p 128 191 r
      | O =>
          if in_range 0 127 c then utf8_scan 0 128 191 r
          else if in_range 194 223 c then utf8_scan 1 128 191 r
          else if (code c =? 224)%N then utf8_scan 2 160 191 r
          else if in_range 225 236 c || in_range 238 239 c then utf8_scan 2 128 191 r
          else if (code c =? 237)%N then utf8_scan 2 128 159 r
          else if (code c =? 240)%N then utf8_scan 3 144 191 r
          else if in_range 241 243 c then utf8_scan 3 128 191 r
          else if (code c =? 244)%N then utf8_scan 3 128 143 r
          else false
      end
  end.

Definition utf8_valid (s : string) : bool := utf8_scan 0 128 191 s.

(** UTF-8 encoding of one code point, surrogates included (they can come out
    of a [\uXXXX] escape). *)
Definition byte_of (n : N) : ascii := ascii_of_N n.

Definition utf8_encode (cp : N) : string :=
  if (cp <? 128)%N then String (byte_of cp) EmptyString
  else if (cp <? 2048)%N then
    String (byte_of (192 + cp / 64)) (String (byte_of (128 + cp mod 64)) EmptyString)
  else if (cp <? 65536)%N then
    String (byte_of (224 + cp / 4096))
      (String (byte_of (128 + (cp / 64) mod 64))
         (String (byte_of (128 + cp mod 64)) EmptyString))
  else
    String (byte_of (240 + cp / 262144))
      (String (byte_of (128 + (cp / 4096) mod 64))
         (String (byte_of (128 + (cp / 64) mod 64))
            (String (byte_of (128 + cp mod 64)) EmptyString))).

End Text.

(** ** JSON values and the decoder of the standard [json] module *)

Module Json.

Import Text.

(** What [json.loads] builds.  An object is a Python [dict]: keys in order of
    first insertion, one entry per key.  A number with a fraction or an
    exponent is kept as its lexeme; its floating-point value is not
    computed. *)
#[warnings="-register-all"]
Inductive json : Type :=
  | JNull
  | JBool (b : bool)
  | JInt (z : Z)
  | JFloat (lexeme : string)
  | JStr (s : string)
  | JArr (items : list json)
  | JObj (members : list (string * json)).

(** [d[k] = v] on a dict. *)
Fixpoint dict_set (k : string) (v : json) (d : list (string * json)) :
  list (string * json) :=
  match d with
  | [] => [(k, v)]
  | (k', v') :: r =>
      if String.eqb k k' then (k, v) :: r else (k', v') :: dict_set k v r
  end.

(** [dict(pairs)]. *)
Definition dict_of_pairs (pairs : list (string * json)) : list (string * json) :=
  fold_left (fun d kv => dict_set (fst kv) (snd kv) d) pairs [].

(** [d.get(k)]. *)
Fixpoint dict_get (k : string) (d : list (string * json)) : option json :=
  match d with
  | [] => None
  | (k', v) :: r => if String.eqb k k' then Some v else dict_get k r
  end.

(** Result of a scanning function: a value and the text left after it, a
    [JSONDecodeError], or fuel used up. *)
Inductive scan (A : Type) : Type :=
  | Scanned (a : A) (rest : string)
  | Malformed
  | NoFuel.
Arguments Scanned {A} a rest.
Arguments Malformed {A}.
Arguments NoFuel {A}.

(** The JSON whitespace characters, [' \t\n\r']. *)
Definition is_ws (c : ascii) : bool :=
  (code c =? 32)%N || (code c =? 9)%N || (code c =? 10)%N || (code c =? 13)%N.

Fixpoint skip_ws (s : string) : string :=
  match s with
  | String c r => if is_ws c then skip_ws r else s
  | EmptyString => EmptyString
  end.

Definition is_digit (c : ascii) : bool := in_range 48 57 c.

Definition digit_val (c : ascii) : Z := Z.of_N (code c) - 48.

Definition hex_val (c : ascii) : option N :=
  if in_range 48 57 c then Some (code c - 48)%N
  else if in_range 97 102 c then Some (code c - 87)%N
  else if in_range 65 70 c then Some (code c - 55)%N
  else None.

(** Four hexadecimal digits of a [\uXXXX] escape. *)
Definition decode_uXXXX (s : string) : option (N * string) :=
  match s with
  | String a (String b (String c (String d r))) =>
      match hex_val a, hex_val b, hex_val c, hex_val d with
      | Some x, Some y, Some z, Some w => Some (((x * 16 + y) * 16 + z) * 16 + w, r)%N
      | _, _, _, _ => None
      end
  | _ => None
  end.

(** [scanstring] in strict mode, entered after the opening quote.  [acc] holds
    the characters decoded so far, last one first. *)
Fixpoint scanstring (acc : list string) (s : string) : scan string :=
  match s with
  | EmptyString => Malformed
  | String c r =>
      if (code c =? 34)%N then Scanned (String.concat "" (rev acc)) r
      else if (code c <? 32)%N then Malformed
      else if (code c =? 92)%N then
        match r with
        | EmptyString => Malformed
        | String e r' =>
            let plain (x : N) := scanstring (String (byte_of x) "" :: acc) r' in
            if (code e =? 34)%N then plain 34%N
            else if (code e =? 92)%N then plain 92%N
            else if (code e =? 47)%N then plain 47%N
            else if (code e =? 98)%N then plain 8%N
            else if (code e =? 102)%N then plain 12%N
            else if (code e =? 110)%N then plain 10%N
            else if (code e =? 114)%N then plain 13%N
            else if (code e =? 116)%N then plain 9%N
            else if (code e =? 117)%N then
              match r' with
              | String a (String b (String c' (String d r1))) =>
                  match decode_uXXXX r' with
                  | None => Malformed
                  | Some (uni, _) =>
                      let single := scanstring (utf8_encode uni :: acc) r1 in
                      if ((55296 <=? uni) && (uni <=? 56319))%N then
                        match r1 with
                        | String b1 (String u1 (String a2 (String b2 (String c2 (String d2 r2))))) =>
                            if (code b1 =? 92)%N && (code u1 =? 117)%N then
                              match decode_uXXXX (String a2 (String b2 (String c2 (String d2 "")))) with
                              | None => Malformed
                              | Some (uni2, _) =>
                                  if ((56320 <=? uni2) && (uni2 <=? 57343))%N then
                                    scanstring
                                      (utf8_encode (65536 + ((uni - 55296) * 1024 + (uni2 - 56320)))%N
                                         :: acc) r2
                                  else single
                              end
                            else single
                        | String b1 (String u1 _) =>
                            if (code b1 =? 92)%N && (code u1 =? 117)%N then Malformed else single
                        | _ => single
                        end
                      else single
                  end
              | _ => Malformed
              end
            else Malformed
        end
      else scanstring (String c "" :: acc) r
  end.

Fixpoint take_digits (s : string) : string * string :=
  match s with
  | String c r =>
      if is_digit c then let (ds, r') := take_digits r in (String c ds, r')
      else (EmptyString, s)
  | EmptyString => (EmptyString, EmptyString)
  end.

Definition int_of_digits (ds : string) : Z :=
  fold_left (fun acc c => 10 * acc + digit_val c) (list_ascii_of_string ds) 0.

(** The number pattern of the scanner matched at the start of [s]: an
    optional minus sign; then a single 0, or a digit 1..9 followed by any
    digits; then, optionally, a dot and one or more digits; then, optionally,
    e or E, an optional sign and one or more digits.  Without fraction and
    exponent the value is an [int]. *)
Definition match_number (s : string) : option (json * string) :=
  let '(neg, s1) :=
    match s with
    | String c r => if (code c =? 45)%N then (true, r) else (false, s)
    | EmptyString => (false, s)
    end in
  let integer :=
    match s1 with
    | String c r =>
        if (code c =? 48)%N then Some (String c EmptyString, r)
        else if in_range 49 57 c then
          let (ds, r') := take_digits r in Some (String c ds, r')
        else None
    | EmptyString => None
    end in
  match integer with
  | None => None
  | Some (ip, s2) =>
      let '(frac, s3) :=
        match s2 with
        | String c r =>
            if (code c =? 46)%N then
              let (fd, r') := take_digits r in
              match fd with
              | EmptyString => (EmptyString, s2)
              | _ => (String c fd, r')
              end
            else (EmptyString, s2)
        | EmptyString => (EmptyString, s2)
        end in
      let '(exp, s4) :=
        match s3 with
        | String c r =>
            if (code c =? 101)%N || (code c =? 69)%N then
              let '(sign, r1) :=
                match r with
                | String g r0 =>
                    if (code g =? 43)%N || (code g =? 45)%N
                    then (String g EmptyString, r0) else (EmptyString, r)
                | EmptyString => (EmptyString, r)
                end in
              let (ed, r') := take_digits r1 in
              match ed with
              | EmptyString => (EmptyString, s3)
              | _ => (String c (sign +:+ ed), r')
              end
            else (EmptyString, s3)
        | EmptyString => (EmptyString, s3)
        end in
      let sgn := if neg then "-" else "" in
      match frac, exp with
      | EmptyString, EmptyString =>
          Some (JInt (if neg then - int_of_digits ip else int_of_digits ip), s4)
      | _, _ => Some (JFloat (sgn +:+ ip +:+ frac +:+ exp), s4)
      end
  end.

(** [s] starts with [p]: the text after [p]. *)
Fixpoint after_prefix (p s : string) : option string :=
  match p, s with
  | EmptyString, _ => Some s
  | String a p', String b s' => if Ascii.eqb a b then after_prefix p' s' else None
  | String _ _, EmptyString => None
  end.

(** [scan_once], [JSONObject] and [JSONArray] of the scanner.  Each function
    receives the text from its current index on, which is [s[end:]]. *)
Fixpoint scan_once (fuel : nat) (s : string) : scan json :=
  match fuel with
  | O => NoFuel
  | S fuel' =>
      match s with
      | EmptyString => Malformed
      | String c r =>
          if (code c =? 34)%N then
            match scanstring [] r with
            | Scanned str r' => Scanned (JStr str) r'
            | Malformed => Malformed
            | NoFuel => NoFuel
            end
          else if (code c =? 123)%N then JSONObject fuel' r
          else if (code c =? 91)%N then JSONArray fuel' r
          else
            match after_prefix "null" s, after_prefix "true" s, after_prefix "false" s with
            | Some r', _, _ => Scanned JNull r'
            | _, Some r', _ => Scanned (JBool true) r'
            | _, _, Some r' => Scanned (JBool false) r'
            | None, None, None =>
                match match_number s with
                | Some (v, r') => Scanned v r'
                | None =>
                    match after_prefix "NaN" s, after_prefix "Infinity" s,
                          after_prefix "-Infinity" s with
                    | Some r', _, _ => Scanned (JFloat "NaN") r'
                    | _, Some r', _ => Scanned (JFloat "Infinity") r'
                    | _, _, Some r' => Scanned (JFloat "-Infinity") r'
                    | None, None, None => Malformed
                    end
                end
            end
      end
  end

with JSONObject (fuel : nat) (s : string) : scan json :=
  match fuel with
  | O => NoFuel
  | S fuel' =>
      match skip_ws s with
      | String c r =>
          if (code c =? 125)%N then Scanned (JObj []) r
          else if (code c =? 34)%N then object_pairs fuel' [] r
          else Malformed
      | EmptyString => Malformed
      end
  end

(** The [while True] of [JSONObject], entered after the opening quote of a
    key, with the pairs read so far. *)
with object_pairs (fuel : nat) (pairs : list (string * json)) (s : string) : scan json :=
  match fuel with
  | O => NoFuel
  | S fuel' =>
      match scanstring [] s with
      | Scanned key s1 =>
          match skip_ws s1 with
          | String c s2 =>
              if (code c =? 58)%N then
                match scan_once fuel' (skip_ws s2) with
                | Scanned value s3 =>
                    let pairs' := pairs ++ [(key, value)] in
                    match skip_ws s3 with
                    | String d s4 =>
                        if (code d =? 125)%N then Scanned (JObj (dict_of_pairs pairs')) s4
                        else if (code d =? 44)%N then
                          match skip_ws s4 with
                          | String q s5 =>
                              if (code q =? 34)%N then object_pairs fuel' pairs' s5
                              else Malformed
                          | EmptyString => Malformed
                          end
                        else Malformed
                    | EmptyString => Malformed
                    end
                | Malformed => Malformed
                | NoFuel => NoFuel
                end
              else Malformed
          | EmptyString => Malformed
          end
      | Malformed => Malformed
      | NoFuel => NoFuel
      end
  end

with JSONArray (fuel : nat) (s : string) : scan json :=
  match fuel with
  | O => NoFuel
  | S fuel' =>
      match skip_ws s with
      | String c r =>
          if (code c =? 93)%N then Scanned (JArr []) r
          else array_items fuel' [] (String c r)
      | EmptyString => array_items fuel' [] EmptyString
      end
  end

(** The [while True] of [JSONArray], with the values read so far. *)
with array_items (fuel : nat) (values : list json) (s : string) : scan json :=
  match fuel with
  | O => NoFuel
  | S fuel' =>
      match scan_once fuel' s with
      | Scanned value s1 =>
          let values' := values ++ [value] in
          match skip_ws s1 with
          | String c s2 =>
              if (code c =? 93)%N then Scanned (JArr values') s2
              else if (code c =? 44)%N then array_items fuel' values' (skip_ws s2)
              else Malformed
          | EmptyString => Malformed
          end
      | Malformed => Malformed
      | NoFuel => NoFuel
      end
  end.

(** Fuel that no text can use up (lemma [decode_fuel_suffices]): fuel goes
    down by one from [scan_once] to the function of a bracket, from there to
    its loop, and from the loop to the next value, which starts at least one
    character further on. *)
Definition decode_fuel (s : string) : nat := 3 + 3 * String.length s.

(** [JSONDecoder.raw_decode(s)]: the first value of [s], which must start at
    index 0, and the index where it ends; [None] is [JSONDecodeError]. *)
Definition raw_decode (s : string) : option (json * nat) :=
  match scan_once (decode_fuel s) s with
  | Scanned v rest => Some (v, (String.length s - String.length rest)%nat)
  | Malformed | NoFuel => None
  end.

(** [json.loads(s)]: one value, whitespace allowed around it, nothing else. *)
Definition loads (s : string) : option json :=
  let s0 := skip_ws s in
  match scan_once (decode_fuel s0) s0 with
  | Scanned v rest =>
      match skip_ws rest with
      | EmptyString => Some v
      | String _ _ => None
      end
  | Malformed | NoFuel => None
  end.

(** [str(int)]. *)
Definition str_of_Z (z : Z) : string :=
  DecimalString.NilZero.string_of_int (Z.to_int z).

(** A string literal as [json.dumps] writes it (quotes, backslashes and the
    usual control characters escaped). *)
Fixpoint escape (s : string) : string :=
  match s with
  | EmptyString => EmptyString
  | String c r =>
      if (code c =? 34)%N then String (byte_of 92) (String c (escape r))
      else if (code c =? 92)%N then String c (String c (escape r))
      else if (code c =? 10)%N then String (byte_of 92) (String "n" (escape r))
      else if (code c =? 13)%N then String (byte_of 92) (String "r" (escape r))
      else if (code c =? 9)%N then String (byte_of 92) (String "t" (escape r))
      else String c (escape r)
  end.

Definition quote (s : string) : string :=
  String (byte_of 34) (escape s +:+ String (byte_of 34) EmptyString).

(** [json.dumps(v)] with the default separators. *)
Fixpoint dumps (v : json) : string :=
  match v with
  | JNull => "null"
  | JBool true => "true"
  | JBool false => "false"
  | JInt z => str_of_Z z
  | JFloat lexeme => lexeme
  | JStr s => quote s
  | JArr items =>
      let fix go (l : list json) : string :=
        match l with
        | [] => ""
        | [x] => dumps x
        | x :: r => dumps x +:+ ", " +:+ go r
        end in
      "[" +:+ go items +:+ "]"
  | JObj members =>
      let fix go (l : list (string * json)) : string :=
        match l with
        | [] => ""
        | [(k, x)] => quote k +:+ ": " +:+ dumps x
        | (k, x) :: r => quote k +:+ ": " +:+ dumps x +:+ ", " +:+ go r
        end in
      "{" +:+ go members +:+ "}"
  end.

End Json.


Export Json(json(..)).

(** ** Exceptions *)

(** The three messages [AsyncIPCProvider] gives a [ProviderConnectionError].
    - [NotInitiated]: "Connection to ipc socket has not been initiated for
      the provider."
    - [RetriesExceeded uri n]: "Could not connect to endpoint: {uri}. Retries
      exceeded max of {n}."
    - [ProblemConnecting]: "Problem connecting to provider with error:
      {type(e)}: {e}", where [e] is the exception being handled; it is the
      context of the new exception. *)
Inductive connection_message : Type :=
  | NotInitiated
  | RetriesExceeded (endpoint_uri : option string) (max_connection_retries : Z)
  | ProblemConnecting.

(** The exception classes that occur.  [OSError] stands for the class and its
    subclasses, told apart by [errno] ([BrokenPipeError] is [EPIPE]).
    [TimeExhausted] keeps the two values its message interpolates: the
    request id and [request_timeout]. *)
#[warnings="-register-all"]
Inductive exn : Type :=
  | OSError (errno : Z) (strerror : string)
  | ProviderConnectionError (message : connection_message) (context : option exn)
  | TimeExhausted (request_id : json) (request_timeout : Z)
  | AttributeError (attribute : string)
  | KeyError (key : string)
  | TypeError
  | UnicodeDecodeError
  | JSONDecodeError
  | DuplicateResponse (cache_key : string)
  | RuntimeError (message : string)
  | StopAsyncIteration
  | AsyncioTimeoutError
  | CancelledError
  | GeneratorExit.

(** [isinstance(e, Exception)]: [CancelledError] and [GeneratorExit] derive
    from [BaseException] only. *)
Definition is_Exception (e : exn) : bool :=
  match e with
  | CancelledError | GeneratorExit => false
  | _ => true
  end.

Definition is_OSError (e : exn) : bool :=
  match e with
  | OSError _ _ => true
  | _ => false
  end.

Definition is_ProviderConnectionError (e : exn) : bool :=
  match e with
  | ProviderConnectionError _ _ => true
  | _ => false
  end.

(** [errno.EPIPE] and two other codes used in examples. *)
Definition EPIPE : Z := 32.
Definition ENOENT : Z := 2.
Definition ECONNRESET : Z := 104.

(** ** Request Processor *)

Module RequestProcessor.

Import Json.

(** Modelled from the spec: [request_processor.py] is not among the sources.
    The processor "owns two pieces of shared state: a response cache keyed by
    request id, and per-subscription queues keyed by subscription id". *)
Record t : Type := Build {
  _request_response_cache : gmap string json;
  _subscription_queues : gmap string (list json)
}.

Definition empty : t := Build ∅ ∅.

(** Modelled from the spec: [generate_cache_key] of [web3._utils.caching] is
    not among the sources.  "A derived key from a request id (hashable,
    stable, collision-free across ids actually in flight)": the JSON text of
    the id. *)
Definition generate_cache_key (request_id : json) : string := dumps request_id.

(** [message.get(k)] on a decoded message; only a dict has members. *)
Definition member (k : string) (message : json) : option json :=
  match message with
  | JObj d => dict_get k d
  | _ => None
  end.

(** The id of a response, [None] when the message has none. *)
Definition response_id (message : json) : json :=
  match member "id" message with
  | Some v => v
  | None => JNull
  end.

(** The subscription id of a push, [message["params"]["subscription"]]. *)
Definition subscription_id (message : json) : option json :=
  match member "params" message with
  | Some params => member "subscription" params
  | None => None
  end.

(** Modelled from the spec: "If [is_subscription] ..., appends to the queue
    for the contained subscription id, creating the queue if absent.
    Otherwise stores under the cache key derived from [message.id],
    overwriting not permitted — a duplicate id before the prior entry is
    popped is a protocol violation and should be surfaced as an error". *)
Definition cache_raw_response (message : json) (subscription : bool) (rp : t)
  : exn + t :=
  if subscription then
    match subscription_id message with
    | Some sid =>
        let k := generate_cache_key sid in
        let queue := default [] (_subscription_queues rp !! k) in
        inr (Build (_request_response_cache rp)
                   (<[k := queue ++ [message]]> (_subscription_queues rp)))
    | None => inl (KeyError "subscription")
    end
  else
    let k := generate_cache_key (response_id message) in
    match _request_response_cache rp !! k with
    | Some _ => inl (DuplicateResponse k)
    | None =>
        inr (Build (<[k := message]> (_request_response_cache rp))
                   (_subscription_queues rp))
    end.

(** Modelled from the spec: "atomically removes and returns the entry if
    present; returns not found (no exception) when absent". *)
Definition pop_raw_response (cache_key : string) (rp : t) : option json * t :=
  match _request_response_cache rp !! cache_key with
  | Some message =>
      (Some message,
       Build (delete cache_key (_request_response_cache rp)) (_subscription_queues rp))
  | None => (None, rp)
  end.

(** Modelled from the spec: "empties both the response cache and all
    subscription queues". *)
Definition clear_caches (rp : t) : t := empty.

End RequestProcessor.

Abbreviation RequestProcessor := RequestProcessor.t.

(** ** The provider and the world around it *)

(** The attributes of an [AsyncIPCProvider].  [reader] and [writer] hold the
    handle of the socket they belong to, [_message_listener_task] the handle
    of the task.  [endpoint_uri], [silence_listener_task_exceptions],
    [_request_processor] and [_message_listener_task] come from the base
    class [PersistentConnectionProvider].

    Modelled from the spec: the base class is not among the sources.  The
    listener is started by [connect] ("opens the Transport Socket and starts
    exactly one Message Listener bound to it"), so a provider that never
    connected has no listener task, and [make_request] "allocates a fresh id"
    ("monotonic"): [request_counter] is the next id. *)
Record Provider : Type := {
  ipc_path : string;
  endpoint_uri : option string;
  request_timeout : Z;
  _max_connection_retries : Z;
  silence_listener_task_exceptions : bool;
  reader : option nat;
  writer : option nat;
  _message_listener_task : option nat;
  _request_processor : RequestProcessor;
  request_counter : nat
}.

Definition set_streams (r w : option nat) (p : Provider) : Provider :=
  {| ipc_path := ipc_path p; endpoint_uri := endpoint_uri p;
     request_timeout := request_timeout p;
     _max_connection_retries := _max_connection_retries p;
     silence_listener_task_exceptions := silence_listener_task_exceptions p;
     reader := r; writer := w;
     _message_listener_task := _message_listener_task p;
     _request_processor := _request_processor p;
     request_counter := request_counter p |}.

Definition set_reader (r : option nat) (p : Provider) : Provider :=
  set_streams r (writer p) p.

Definition set_writer (w : option nat) (p : Provider) : Provider :=
  set_streams (reader p) w p.

Definition set_listener_task (t : option nat) (p : Provider) : Provider :=
  {| ipc_path := ipc_path p; endpoint_uri := endpoint_uri p;
     request_timeout := request_timeout p;
     _max_connection_retries := _max_connection_retries p;
     silence_listener_task_exceptions := silence_listener_task_exceptions p;
     reader := reader p; writer := writer p;
     _message_listener_task := t;
     _request_processor := _request_processor p;
     request_counter := request_counter p |}.

Definition set_request_processor (rp : RequestProcessor) (p : Provider) : Provider :=
  {| ipc_path := ipc_path p; endpoint_uri := endpoint_uri p;
     request_timeout := request_timeout p;
     _max_connection_retries := _max_connection_retries p;
     silence_listener_task_exceptions := silence_listener_task_exceptions p;
     reader := reader p; writer := writer p;
     _message_listener_task := _message_listener_task p;
     _request_processor := rp;
     request_counter := request_counter p |}.

Definition set_request_counter (n : nat) (p : Provider) : Provider :=
  {| ipc_path := ipc_path p; endpoint_uri := endpoint_uri p;
     request_timeout := request_timeout p;
     _max_connection_retries := _max_connection_retries p;
     silence_listener_task_exceptions := silence_listener_task_exceptions p;
     reader := reader p; writer := writer p;
     _message_listener_task := _message_listener_task p;
     _request_processor := _request_processor p;
     request_counter := n |}.

(** [AsyncIPCProvider(ipc_path, request_timeout, max_connection_retries,
    silence_listener_task_exceptions=...)] right after construction. *)
Definition new_provider (path : string) (timeout retries : Z) (silence : bool)
  : Provider :=
  {| ipc_path := path; endpoint_uri := None;
     request_timeout := timeout;
     _max_connection_retries := retries;
     silence_listener_task_exceptions := silence;
     reader := None; writer := None;
     _message_listener_task := None;
     _request_processor := RequestProcessor.empty;
     request_counter := 0 |}.

(** Where an [asyncio] task stands. *)
Inductive task_state : Type :=
  | Running
  | Cancelled
  | Failed (e : exn)
  | Finished.

(** A listener task: its state and the local variable [raw_message] of
    [_message_listener]. *)
Record Task : Type := {
  state : task_state;
  raw_message : string
}.

(** What the provider logs.  The line a listener writes when it starts runs
    before its loop and is not recorded. *)
Inductive log_record : Type :=
  | LogRetrying (endpoint_uri : option string) (backoff_time : float)
  | LogDisconnected (endpoint_uri : option string)
  | LogPopping (request_id : json)
  | LogListenerError (e : exn).

(** What the provider does to the outside, in order. *)
Inductive event : Type :=
  | EvOpen (path : string)
  | EvWrite (socket : nat) (data : string)
  | EvClose (socket : nat)
  | EvSleep (delay : float)
  | EvLog (record : log_record).

(** The oracles.  Each one answers for the k-th call of its kind.
    - [socket_open]: [async_get_ipc_socket]; [None] is success.
    - [socket_write]: [writer.write(data)] followed by [writer.drain()].
    - [socket_close]: [writer.close()] followed by [writer.wait_closed()].
    - [socket_read k t n]: what [reader.read(n)] of listener task [t] gets
      during the k-th suspension of the observed coroutine; [None] when no
      byte arrives then, so that the listener stays in its [read].
    - [time_passing]: the seconds that go by during the k-th suspension. *)
Record Env : Type := {
  socket_open : nat -> option exn;
  socket_write : nat -> option exn;
  socket_close : nat -> option exn;
  socket_read : nat -> nat -> nat -> option (exn + string);
  time_passing : nat -> Q
}.

(** The provider, the tasks of the event loop and the bookkeeping of the
    oracles.  [cancel_requested] says that the task running the observed
    coroutine has been cancelled by someone else. *)
Record World : Type := {
  provider : Provider;
  tasks : list Task;
  cancel_requested : bool;
  closing : list nat;
  opens : nat;
  writes : nat;
  closes : nat;
  suspensions : nat;
  clock : Q;
  trace : list event
}.

Definition new_world (p : Provider) : World :=
  {| provider := p; tasks := []; cancel_requested := false; closing := [];
     opens := 0; writes := 0; closes := 0; suspensions := 0;
     clock := 0%Q; trace := [] |}.

Definition set_provider (p : Provider) (w : World) : World :=
  {| provider := p; tasks := tasks w; cancel_requested := cancel_requested w;
     closing := closing w; opens := opens w; writes := writes w;
     closes := closes w; suspensions := suspensions w;
     clock := clock w; trace := trace w |}.

Definition set_tasks (ts : list Task) (w : World) : World :=
  {| provider := provider w; tasks := ts; cancel_requested := cancel_requested w;
     closing := closing w; opens := opens w; writes := writes w;
     closes := closes w; suspensions := suspensions w;
     clock := clock w; trace := trace w |}.

Definition set_cancel_requested (b : bool) (w : World) : World :=
  {| provider := provider w; tasks := tasks w; cancel_requested := b;
     closing := closing w; opens := opens w; writes := writes w;
     closes := closes w; suspensions := suspensions w;
     clock := clock w; trace := trace w |}.

Definition emit (ev : event) (w : World) : World :=
  {| provider := provider w; tasks := tasks w; cancel_requested := cancel_requested w;
     closing := closing w; opens := opens w; writes := writes w;
     closes := closes w; suspensions := suspensions w;
     clock := clock w; trace := trace w ++ [ev] |}.

Definition count_open (w : World) : World :=
  {| provider := provider w; tasks := tasks w; cancel_requested := cancel_requested w;
     closing := closing w; opens := S (opens w); writes := writes w;
     closes := closes w; suspensions := suspensions w;
     clock := clock w; trace := trace w |}.

Definition count_write (w : World) : World :=
  {| provider := provider w; tasks := tasks w; cancel_requested := cancel_requested w;
     closing := closing w; opens := opens w; writes := S (writes w);
     closes := closes w; suspensions := suspensions w;
     clock := clock w; trace := trace w |}.

Definition count_close (socket : nat) (w : World) : World :=
  {| provider := provider w; tasks := tasks w; cancel_requested := cancel_requested w;
     closing := socket :: closing w; opens := opens w; writes := writes w;
     closes := S (closes w); suspensions := suspensions w;
     clock := clock w; trace := trace w |}.

Definition count_suspension (dt : Q) (w : World) : World :=
  {| provider := provider w; tasks := tasks w; cancel_requested := cancel_requested w;
     closing := closing w; opens := opens w; writes := writes w;
     closes := closes w; suspensions := S (suspensions w);
     clock := (clock w + dt)%Q; trace := trace w |}.

(** ** Coroutines as state transformers *)

(** How a coroutine ends: it returns, it raises, or the model ran out of
    fuel before it did either. *)
Inductive result (A : Type) : Type :=
  | Ret (a : A)
  | Raise (e : exn)
  | OutOfFuel.
Arguments Ret {A} a.
Arguments Raise {A} e.
Arguments OutOfFuel {A}.

Definition M (A : Type) : Type := World -> result A * World.

Definition ret {A : Type} (a : A) : M A := fun w => (Ret a, w).

Definition raise {A : Type} (e : exn) : M A := fun w => (Raise e, w).

Definition bind {A B : Type} (m : M A) (k : A -> M B) : M B :=
  fun w =>
    match m w with
    | (Ret a, w') => k a w'
    | (Raise e, w') => (Raise e, w')
    | (OutOfFuel, w') => (OutOfFuel, w')
    end.

(** [try: m except ...: handler]; the handler answers [None] for an exception
    that no [except] clause matches. *)
Definition try_except {A : Type} (m : M A) (handler : exn -> option (M A)) : M A :=
  fun w =>
    match m w with
    | (Raise e, w') =>
        match handler e with
        | Some h => h w'
        | None => (Raise e, w')
        end
    | r => r
    end.

Definition get_provider : M Provider := fun w => (Ret (provider w), w).

Definition update_provider (f : Provider -> Provider) : M unit :=
  fun w => (Ret tt, set_provider (f (provider w)) w).

Definition tell (ev : event) : M unit := fun w => (Ret tt, emit ev w).

Declare Scope coroutine_scope.
Delimit Scope coroutine_scope with co.
Notation "x <- m ;; k" := (bind m (fun x => k))
  (at level 100, m at next level, right associativity) : coroutine_scope.
Notation "m ;; k" := (bind m (fun _ => k))
  (at level 100, right associativity) : coroutine_scope.
Local Open Scope coroutine_scope.

(** [async_get_ipc_socket(ipc_path)].  Both branches (named pipe on win32,
    unix socket elsewhere) give a reader and a writer on one new socket or
    raise; the new socket's handle is the number of the call. *)
Definition async_get_ipc_socket (env : Env) (path : string) : M nat :=
  fun w =>
    let w1 := emit (EvOpen path) (count_open w) in
    match socket_open env (opens w) with
    | Some e => (Raise e, w1)
    | None => (Ret (opens w), w1)
    end.

(** [writer.write(data); await writer.drain()]. *)
Definition write_drain (env : Env) (socket : nat) (data : string) : M unit :=
  fun w =>
    match socket_write env (writes w) with
    | Some e => (Raise e, count_write w)
    | None => (Ret tt, emit (EvWrite socket data) (count_write w))
    end.

(** [writer.close(); await writer.wait_closed()]. *)
Definition close_wait_closed (env : Env) (socket : nat) : M unit :=
  fun w =>
    let w1 := emit (EvClose socket) (count_close socket w) in
    match socket_close env (closes w) with
    | Some e => (Raise e, w1)
    | None => (Ret tt, w1)
    end.

(** [writer.is_closing()]. *)
Definition is_closing (socket : nat) (w : World) : bool :=
  bool_decide (socket ∈ closing w).

(** ** The message listener *)

Module Listener.

Import Json.

(** [to_text(primitive)] of [eth_utils] on bytes: [primitive.decode("utf-8")]. *)
Definition to_text (primitive : string) : exn + string :=
  if Text.utf8_valid primitive then inr primitive else inl UnicodeDecodeError.

(** How the [try] block of one iteration ends. *)
Inductive tried : Type :=
  | Completed (raw_message : string) (rp : RequestProcessor)
  | Excepted (e : exn) (rp : RequestProcessor)
  | Exhausted.

(** [while raw_message: ...] (lines 223 to 233). *)
Fixpoint decode_loop (fuel : nat) (raw_message : string) (rp : RequestProcessor)
  : tried :=
  match raw_message with
  | EmptyString => Completed raw_message rp
  | String _ _ =>
      match raw_decode raw_message with
      | None => Completed raw_message rp
      | Some (response, pos) =>
          match response with
          | JObj d =>
              let is_subscription :=
                match dict_get "method" d with
                | Some (JStr m) => String.eqb m "eth_subscription"
                | _ => false
                end in
              match RequestProcessor.cache_raw_response response is_subscription rp with
              | inl e => Excepted e rp
              | inr rp' =>
                  match fuel with
                  | O => Exhausted
                  | S fuel' => decode_loop fuel' (Text.lstrip (Text.drop pos raw_message)) rp'
                  end
              end
          | _ => Excepted (AttributeError "get") rp
          end
      end
  end.

(** The [try] block (lines 221 to 233), given what [reader.read(4096)] did. *)
Definition try_block (read : exn + string) (raw_message : string)
  (rp : RequestProcessor) : tried :=
  match read with
  | inl e => Excepted e rp
  | inr chunk =>
      match to_text chunk with
      | inl e => Excepted e rp
      | inr text =>
          let raw_message := raw_message +:+ Text.lstrip text in
          decode_loop (String.length raw_message) raw_message rp
      end
  end.

(** How one iteration of [while True] ends. *)
Inductive iteration : Type :=
  | Continue (raw_message : string) (rp : RequestProcessor) (logged : option exn)
  | Propagate (e : exn) (rp : RequestProcessor) (cancel_all_tasks : bool)
  | Stuck.

(** One iteration: the [try] block and its [except Exception] clause (lines
    220 to 246). *)
Definition iterate (silence : bool) (read : exn + string) (raw_message : string)
  (rp : RequestProcessor) : iteration :=
  match try_block read raw_message rp with
  | Completed raw_message' rp' => Continue raw_message' rp' None
  | Excepted e rp' =>
      if is_Exception e then
        if negb silence then Propagate e rp' true
        else Continue EmptyString rp' (Some e)
      else Propagate e rp' false
  | Exhausted => Stuck
  end.

(** The listener on a sequence of reads: the processor, the buffer and the
    errors logged after the last of them, or the exception that ended it. *)
Fixpoint run (silence : bool) (reads : list (exn + string)) (raw_message : string)
  (rp : RequestProcessor) (logged : list exn) : iteration * list exn :=
  match reads with
  | [] => (Continue raw_message rp None, logged)
  | read :: reads' =>
      match iterate silence read raw_message rp with
      | Continue raw_message' rp' l =>
          run silence reads' raw_message' rp'
            (logged ++ match l with Some e => [e] | None => [] end)
      | stop => (stop, logged)
      end
  end.

(** [for task in asyncio.all_tasks(loop): task.cancel()]: every task that
    has not ended is cancelled, the one of the observed coroutine included. *)
Definition cancel_all (w : World) : World :=
  set_cancel_requested true
    (set_tasks
       (map (fun t => match state t with
                      | Running => {| state := Cancelled; raw_message := raw_message t |}
                      | _ => t
                      end) (tasks w)) w).

(** What ends a task that lets [e] escape. *)
Definition ended_by (e : exn) : task_state :=
  match e with
  | CancelledError => Cancelled
  | _ => Failed e
  end.

(** [await self.reader.read(4096)] of task [t] during suspension [k]:
    [self.reader] is looked up anew each time and may be [None]; without data
    the task stays suspended in [read]. *)
Definition read_attempt (env : Env) (k t : nat) (p : Provider) : option (exn + string) :=
  match reader p with
  | None => Some (inl (AttributeError "read"))
  | Some _ => socket_read env k t 4096
  end.

(** During suspension [k] of the observed coroutine, task [t] gets the
    processor for one iteration of [_message_listener]. *)
Definition step (env : Env) (k t : nat) (w : World) : World :=
  match tasks w !! t with
  | Some {| state := Running; raw_message := buffer |} =>
      let p := provider w in
      match read_attempt env k t p with
      | None => w
      | Some r =>
          match iterate (silence_listener_task_exceptions p) r buffer
                        (_request_processor p) with
          | Continue buffer' rp' logged =>
              let w2 := set_provider (set_request_processor rp' p) w in
              let w3 := match logged with
                        | Some e => emit (EvLog (LogListenerError e)) w2
                        | None => w2
                        end in
              set_tasks (<[t := {| state := Running; raw_message := buffer' |}]> (tasks w3)) w3
          | Propagate e rp' cancel =>
              let w2 := set_provider (set_request_processor rp' p) w in
              let w3 := if cancel then cancel_all w2 else w2 in
              set_tasks (<[t := {| state := ended_by e; raw_message := buffer |}]> (tasks w3)) w3
          | Stuck => w
          end
      end
  | _ => w
  end.

End Listener.

(** ** Suspension *)

(** The observed coroutine awaits [asyncio.sleep(0)]: time passes and every
    task of the loop gets its turn, in order of creation. *)
Definition suspend (env : Env) (w : World) : World :=
  let w1 := count_suspension (time_passing env (suspensions w)) w in
  fold_left (fun w' t => Listener.step env (suspensions w) t w')
    (seq 0 (length (tasks w1))) w1.

(** ** AsyncIPCProvider *)

Module AsyncIPCProvider.

Import Json.

Definition _backoff_rate_change : float := 1.75%float.

(** The [while] loop of [connect] (lines 102 to 122), entered with the
    current values of [_connection_attempts] and [_backoff_time]. *)
Fixpoint connect_loop (fuel : nat) (env : Env) (_connection_attempts : Z)
  (_backoff_time : float) : M unit :=
  fun w =>
    let p := provider w in
    if _connection_attempts =? _max_connection_retries p then (Ret tt, w)
    else
      match fuel with
      | O => (OutOfFuel, w)
      | S fuel' =>
          let _connection_attempts := _connection_attempts + 1 in
          match async_get_ipc_socket env (ipc_path p) w with
          | (Ret socket, w1) =>
              let t := length (tasks w1) in
              let w2 := set_provider (set_streams (Some socket) (Some socket) (provider w1)) w1 in
              let w3 := set_tasks (tasks w2 ++ [{| state := Running; raw_message := "" |}]) w2 in
              (Ret tt, set_provider (set_listener_task (Some t) (provider w3)) w3)
          | (Raise e, w1) =>
              if is_OSError e then
                if _connection_attempts =? _max_connection_retries p then
                  (Raise (ProviderConnectionError
                            (RetriesExceeded (endpoint_uri p) (_max_connection_retries p))
                            (Some e)), w1)
                else
                  let w2 := emit (EvLog (LogRetrying (endpoint_uri p) _backoff_time)) w1 in
                  let w3 := emit (EvSleep _backoff_time) w2 in
                  connect_loop fuel' env _connection_attempts
                    (_backoff_time * _backoff_rate_change)%float w3
              else (Raise e, w1)
          | (OutOfFuel, w1) => (OutOfFuel, w1)
          end
      end.

(** [connect()]. *)
Definition connect (fuel : nat) (env : Env) : M unit :=
  connect_loop fuel env 0 1.75%float.

(** [task.cancel(); await task] for the task with handle [t]. *)
Definition cancel_and_await (t : nat) : M unit :=
  fun w =>
    match tasks w !! t with
    | Some task =>
        match state task with
        | Running =>
            (Raise CancelledError,
             set_tasks (<[t := {| state := Cancelled; raw_message := raw_message task |}]> (tasks w)) w)
        | Cancelled => (Raise CancelledError, w)
        | Failed e => (Raise e, w)
        | Finished => (Ret tt, w)
        end
    | None => (Raise (AttributeError "cancel"), w)
    end.

(** [disconnect()]. *)
Definition disconnect (env : Env) : M unit :=
  ( p <- get_provider ;;
    match writer p with
    | Some socket =>
        fun w =>
          if is_closing socket w then (Ret tt, w)
          else
            ( close_wait_closed env socket ;;
              update_provider (set_writer None) ;;
              tell (EvLog (LogDisconnected (endpoint_uri p))) ) w
    | None => ret tt
    end ) ;;
  try_except
    ( p <- get_provider ;;
      match _message_listener_task p with
      | None => raise (AttributeError "cancel")
      | Some t => cancel_and_await t ;; update_provider (set_reader None)
      end )
    (fun e => match e with
              | CancelledError | StopAsyncIteration => Some (ret tt)
              | _ => None
              end) ;;
  update_provider (fun p => set_request_processor
                              (RequestProcessor.clear_caches (_request_processor p)) p).

(** [_reset_socket()]. *)
Definition _reset_socket (env : Env) : M unit :=
  p <- get_provider ;;
  match writer p with
  | None => raise (AttributeError "close")
  | Some socket =>
      close_wait_closed env socket ;;
      new <- async_get_ipc_socket env (ipc_path p) ;;
      update_provider (set_streams (Some new) (Some new))
  end.

(** Modelled from the spec: [encode_rpc_request] belongs to a base class that
    is not among the sources.  [make_request] "allocates a fresh id, encodes
    the Request"; the wire format of a request is
    [{"id": <int|string>, "method": <string>, "params": <array>}]. *)
Definition encode_rpc_request (method : string) (params : json) : M string :=
  fun w =>
    let n := request_counter (provider w) in
    (Ret (dumps (JObj [("id", JInt (Z.of_nat n)); ("method", JStr method);
                       ("params", params)])),
     set_provider (set_request_counter (S n) (provider w)) w).

(** [json.loads(request_data)["id"]]. *)
Definition request_id_of (request_data : string) : M json :=
  match loads request_data with
  | None => raise JSONDecodeError
  | Some (JObj d) =>
      match dict_get "id" d with
      | Some v => ret v
      | None => raise (KeyError "id")
      end
  | Some _ => raise TypeError
  end.

Definition errno_of (e : exn) : option Z :=
  match e with
  | OSError n _ => Some n
  | _ => None
  end.

(** [_match_response_id_to_request_id()] under [asyncio.wait_for]: at each
    suspension the coroutine may find itself cancelled, by someone else
    ([CancelledError]) or by the timer of [wait_for], which is due once the
    clock has reached [deadline] ([asyncio.TimeoutError]). *)
Fixpoint _match_response_id_to_request_id (fuel : nat) (env : Env)
  (request_id : json) (deadline : Q) : M json :=
  fun w =>
    match fuel with
    | O => (OutOfFuel, w)
    | S fuel' =>
        let request_cache_key := RequestProcessor.generate_cache_key request_id in
        let w1 := suspend env w in
        if cancel_requested w1 then (Raise CancelledError, w1)
        else if Qle_bool deadline (clock w1) then (Raise AsyncioTimeoutError, w1)
        else
          let rp := _request_processor (provider w1) in
          match RequestProcessor._request_response_cache rp !! request_cache_key with
          | Some _ =>
              let w2 := emit (EvLog (LogPopping request_id)) w1 in
              let (popped_response, rp') :=
                RequestProcessor.pop_raw_response request_cache_key rp in
              (Ret (default JNull popped_response),
               set_provider (set_request_processor rp' (provider w2)) w2)
          | None => _match_response_id_to_request_id fuel' env request_id deadline w1
          end
    end.

(** [_get_response_for_request_id(request_id)]. *)
Definition _get_response_for_request_id (fuel : nat) (env : Env) (request_id : json)
  : M json :=
  fun w =>
    let timeout := request_timeout (provider w) in
    try_except
      (_match_response_id_to_request_id fuel env request_id
         (clock w + inject_Z timeout)%Q)
      (fun e => match e with
                | AsyncioTimeoutError => Some (raise (TimeExhausted request_id timeout))
                | _ => None
                end) w.

(** [make_request(method, params)].  The decorator
    [async_handle_request_caching] comes from a module that is not among the
    sources and that the design document does not describe; the body is
    embedded as it stands. *)
Definition make_request (fuel : nat) (env : Env) (method : string) (params : json)
  : M json :=
  request_data <- encode_rpc_request method params ;;
  p <- get_provider ;;
  match writer p with
  | None => raise (ProviderConnectionError NotInitiated None)
  | Some socket =>
      try_except (write_drain env socket request_data)
        (fun e =>
           match errno_of e with
           | Some n =>
               if n =? EPIPE then
                 Some ( _reset_socket env ;;
                        p' <- get_provider ;;
                        match writer p' with
                        | Some socket' => write_drain env socket' request_data
                        | None => raise (AttributeError "write")
                        end )
               else Some (ret tt)
           | None => None
           end) ;;
      current_request_id <- request_id_of request_data ;;
      _get_response_for_request_id fuel env current_request_id
  end.

(** [is_connected(show_traceback)]. *)
Definition is_connected (fuel : nat) (env : Env) (show_traceback : bool) : M bool :=
  try_except
    ( make_request fuel env "web3_clientVersion" (JArr []) ;; ret true )
    (fun e =>
       if is_OSError e || is_ProviderConnectionError e then
         Some (if show_traceback
               then raise (ProviderConnectionError ProblemConnecting (Some e))
               else ret false)
       else None).

End AsyncIPCProvider.

(** ** The connection facade *)

Module PersistentConnectionWeb3.

(** Where the asynchronous generator made by [__aiter__] stands: not started,
    suspended at [yield self], or finished. *)
Inductive generator : Type :=
  | Created
  | AtYield
  | Closed.

(** How the caller resumes it: [__anext__()], which every turn of an
    [async for] does, or [athrow(e)], which raises [e] at the [yield]. *)
Inductive resumption : Type :=
  | ANext
  | AThrow (e : exn).

(** What the caller gets back. *)
Inductive produced : Type :=
  | Yielded
  | Raised (e : exn)
  | NoAnswer.

(** One resumption of the generator of [__aiter__] (lines 567 to 577). *)
Definition __aiter__ (fuel : nat) (env : Env) (g : generator) (r : resumption)
  (w : World) : produced * generator * World :=
  match g, r with
  | Created, ANext =>
      match AsyncIPCProvider.is_connected fuel env false w with
      | (Ret true, w1) => (Yielded, AtYield, w1)
      | (Ret false, w1) =>
          match AsyncIPCProvider.connect fuel env w1 with
          | (Ret _, w2) => (Yielded, AtYield, w2)
          | (Raise e, w2) => (Raised e, Closed, w2)
          | (OutOfFuel, w2) => (NoAnswer, Created, w2)
          end
      | (Raise e, w1) => (Raised e, Closed, w1)
      | (OutOfFuel, w1) => (NoAnswer, Created, w1)
      end
  | Created, AThrow e => (Raised e, Closed, w)
  | AtYield, ANext => (Yielded, AtYield, w)
  | AtYield, AThrow e =>
      if is_Exception e then (Yielded, AtYield, w) else (Raised e, Closed, w)
  | Closed, _ => (Raised StopAsyncIteration, Closed, w)
  end.

(** [__aenter__()] (lines 554 to 556): connects, whatever the state of the
    provider, and returns the handle. *)
Definition __aenter__ (fuel : nat) (env : Env) : M unit :=
  AsyncIPCProvider.connect fuel env.

(** [__aexit__(exc_type, exc_val, exc_tb)] (lines 558 to 564): disconnects
    and returns [None], whatever exception it is told about. *)
Definition __aexit__ (env : Env) (exc_val : option exn) : M unit :=
  AsyncIPCProvider.disconnect env.

(** [async with w3.persistent_connection(provider) as w3: body], as the
    language runs it: [__aenter__], then the body, then [__aexit__] with the
    exception of the body if it raised one.  [__aexit__] answers [None], so
    that exception is raised again afterwards; an exception of [__aexit__]
    itself takes its place.  When [__aenter__] raises, neither the body nor
    [__aexit__] runs. *)
Definition async_with {A : Type} (fuel : nat) (env : Env) (body : M A) : M A :=
  fun w =>
    match __aenter__ fuel env w with
    | (Ret _, w1) =>
        match body w1 with
        | (Ret a, w2) =>
            match __aexit__ env None w2 with
            | (Ret _, w3) => (Ret a, w3)
            | (Raise e', w3) => (Raise e', w3)
            | (OutOfFuel, w3) => (OutOfFuel, w3)
            end
        | (Raise e, w2) =>
            match __aexit__ env (Some e) w2 with
            | (Ret _, w3) => (Raise e, w3)
            | (Raise e', w3) => (Raise e', w3)
            | (OutOfFuel, w3) => (OutOfFuel, w3)
            end
        | (OutOfFuel, w2) => (OutOfFuel, w2)
        end
    | (Raise e, w1) => (Raise e, w1)
    | (OutOfFuel, w1) => (OutOfFuel, w1)
    end.

End PersistentConnectionWeb3.

(** ** Observations *)

(** What [encode_rpc_request] leaves behind: the next id is taken. *)
Definition id_taken (w : World) : World :=
  set_provider (set_request_counter (S (request_counter (provider w))) (provider w)) w.

(** The bytes [encode_rpc_request] makes of a request in world [w]. *)
Definition request_data (method : string) (params : json) (w : World) : string :=
  Json.dumps (JObj [("id", JInt (Z.of_nat (request_counter (provider w))));
                    ("method", JStr method); ("params", params)]).

(** What a successful [_reset_socket()] leaves behind: the old socket closed,
    a new one opened, reader and writer on the new one. *)
Definition after_reset (socket : nat) (w : World) : World :=
  let w1 := emit (EvClose socket) (count_close socket w) in
  let w2 := emit (EvOpen (ipc_path (provider w))) (count_open w1) in
  set_provider (set_streams (Some (opens w)) (Some (opens w)) (provider w2)) w2.

(** The rest of [make_request] once the request is on its way (lines 167 to
    170). *)
Definition await_response (fuel : nat) (env : Env) (data : string) : M json :=
  bind (AsyncIPCProvider.request_id_of data)
       (AsyncIPCProvider._get_response_for_request_id fuel env).


(** The response the processor holds under [key], if any. *)
Definition cached (w : World) (key : string) : option json :=
  RequestProcessor._request_response_cache (_request_processor (provider w)) !! key.

(** At the suspension that leads to [w] the awaiting coroutine is neither
    cancelled nor timed out, and finds nothing under [key]. *)
Definition still_waiting (deadline : Q) (key : string) (w : World) : Prop :=
  cancel_requested w = false
  /\ Qle_bool deadline (clock w) = false
  /\ cached w key = None.

(** The delays slept, in order. *)
Fixpoint sleeps (tr : list event) : list float :=
  match tr with
  | [] => []
  | EvSleep d :: r => d :: sleeps r
  | _ :: r => sleeps r
  end.

(** The connection attempts made, in order. *)
Fixpoint attempts (tr : list event) : list string :=
  match tr with
  | [] => []
  | EvOpen path :: r => path :: attempts r
  | _ :: r => attempts r
  end.

(** The data written, in order. *)
Fixpoint written (tr : list event) : list (nat * string) :=
  match tr with
  | [] => []
  | EvWrite socket data :: r => (socket, data) :: written r
  | _ :: r => written r
  end.

(** [n] delays, the first one [d], each next one the product of the one
    before and the rate of change. *)
Fixpoint backoff_series (n : nat) (d : float) : list float :=
  match n with
  | O => []
  | S n' => d :: backoff_series n' (d * AsyncIPCProvider._backoff_rate_change)%float
  end.

(** Every attempt to open the socket fails with an [OSError]. *)
Definition always_failing (env : Env) : Prop :=
  forall k, exists e, socket_open env k = Some e /\ is_OSError e = true.



(** A task as [cancel_all] leaves it. *)
Definition cancelled (t : Task) : Task :=
  match state t with
  | Running => {| state := Cancelled; raw_message := raw_message t |}
  | _ => t
  end.

(** The world after [k] attempts of [connect] have failed with an [OSError]
    and have been slept over, the first sleep lasting [b]. *)
Fixpoint after_failed_attempts (k : nat) (b : float) (w : World) : World :=
  match k with
  | O => w
  | S k' =>
      after_failed_attempts k' (b * AsyncIPCProvider._backoff_rate_change)%float
        (emit (EvSleep b)
           (emit (EvLog (LogRetrying (endpoint_uri (provider w)) b))
              (emit (EvOpen (ipc_path (provider w))) (count_open w))))
  end.

(** The first [k] attempts to open the socket, counted from the next one,
    fail with an [OSError]. *)
Definition next_attempts_fail (env : Env) (k : nat) (w : World) : Prop :=
  forall i, (i < k)%nat ->
            exists e, socket_open env (opens w + i) = Some e /\ is_OSError e = true.

(** The world [connect] leaves when the attempt made in [w] succeeds: reader
    and writer on the new socket, a new listener task at the end of the
    tasks. *)
Definition after_connecting (w : World) : World :=
  let w1 := emit (EvOpen (ipc_path (provider w))) (count_open w) in
  let w2 := set_provider (set_streams (Some (opens w)) (Some (opens w)) (provider w1)) w1 in
  let w3 := set_tasks (tasks w2 ++ [{| state := Running; raw_message := "" |}]) w2 in
  set_provider (set_listener_task (Some (length (tasks w))) (provider w3)) w3.

(** The world after [disconnect] has closed [socket]: the socket closing,
    the writer gone, the line logged. *)
Definition after_closing (socket : nat) (w : World) : World :=
  let w1 := emit (EvClose socket) (count_close socket w) in
  emit (EvLog (LogDisconnected (endpoint_uri (provider w))))
    (set_provider (set_writer None (provider w1)) w1).

(** The decoded message is a JSON object. *)
Definition is_object (v : json) : bool :=
  match v with
  | JObj _ => true
  | _ => false
  end.

(** The world after [i] suspensions of the observed coroutine. *)
Definition after_suspensions (env : Env) (i : nat) (w : World) : World :=
  Nat.iter i (suspend env) w.

(** ** Scenarios *)

(** Concrete providers, nodes and byte streams on which the statements
    below are tried. *)
Module Scenario.

Import Text.

(** A node that accepts every connection, takes every write and sends the
    chunk [chunks k] during suspension [k]; a second passes per suspension. *)
Definition node (chunks : nat -> option (exn + string)) : Env :=
  {| socket_open := fun _ => None;
     socket_write := fun _ => None;
     socket_close := fun _ => None;
     socket_read := fun k _ _ => chunks k;
     time_passing := fun _ => 1%Q |}.

(** A node that never sends anything. *)
Definition silent : Env := node (fun _ => None).

(** No socket file at the path: every connection attempt fails. *)
Definition unreachable : Env :=
  {| socket_open := fun _ => Some (OSError ENOENT "No such file or directory");
     socket_write := fun _ => None;
     socket_close := fun _ => None;
     socket_read := fun _ _ _ => None;
     time_passing := fun _ => 1%Q |}.

(** A node whose pipe breaks on the first write and resets the connection on
    the second one. *)
Definition flaky : Env :=
  {| socket_open := fun _ => None;
     socket_write := fun k =>
       match k with
       | O => Some (OSError EPIPE "Broken pipe")
       | _ => Some (OSError ECONNRESET "Connection reset by peer")
       end;
     socket_close := fun _ => None;
     socket_read := fun _ _ _ => None;
     time_passing := fun _ => 1%Q |}.

(** A node that answers request 0 during suspension 2. *)
Definition answering : Env :=
  node (fun k => match k with
                 | 2%nat => Some (inr (dq "{'id': 0, 'result': 'Geth/v1.13'}"))
                 | _ => None
                 end).

Definition geth_ipc : string := "/tmp/geth.ipc".

(** A response whose result holds a space, and the same bytes in two reads,
    cut before the space. *)
Definition version_reply : string := dq "{'id': 1, 'result': 'Geth v1'}".
Definition version_reply_head : string := dq "{'id': 1, 'result': 'Geth".
Definition version_reply_tail : string := dq " v1'}".

(** A response whose result is one accented letter, U+00E9, which takes two
    bytes, and the same bytes cut between the two. *)
Definition accent_reply : string :=
  dq "{'id': 2, 'result': '" +:+ String (ascii_of_nat 195) (String (ascii_of_nat 169) (dq "'}")).
Definition accent_reply_head : string :=
  dq "{'id': 2, 'result': '" +:+ String (ascii_of_nat 195) "".
Definition accent_reply_tail : string :=
  String (ascii_of_nat 169) (dq "'}").

(** Two pushes of one subscription. *)
Definition push (n : Z) : json :=
  JObj [("method", JStr "eth_subscription");
        ("params", JObj [("subscription", JStr "0xcd0c3e8af590364c09d0fa6a1210faf5");
                         ("result", JInt n)])].

(** [AsyncIPCProvider("/tmp/geth.ipc")] with three connection attempts, in
    the strict and in the lenient configuration. *)
Definition strict_provider : Provider := new_provider geth_ipc 10 3 false.
Definition lenient_provider : Provider := new_provider geth_ipc 10 3 true.

(** The strict provider after a successful [connect()]. *)
Definition connected : World :=
  snd (AsyncIPCProvider.connect 3 silent (new_world strict_provider)).

(** A node whose socket appears only for the third connection attempt. *)
Definition late : Env :=
  {| socket_open := fun k =>
       match k with
       | 0%nat | 1%nat => Some (OSError ENOENT "No such file or directory")
       | _ => None
       end;
     socket_write := fun _ => None;
     socket_close := fun _ => None;
     socket_read := fun _ _ _ => None;
     time_passing := fun _ => 1%Q |}.

(** Opening the socket fails with something that is not an [OSError]. *)
Definition misused : Env :=
  {| socket_open := fun _ => Some TypeError;
     socket_write := fun _ => None;
     socket_close := fun _ => None;
     socket_read := fun _ _ _ => None;
     time_passing := fun _ => 1%Q |}.

(** A node whose sockets fail while closing. *)
Definition unclosable : Env :=
  {| socket_open := fun _ => None;
     socket_write := fun _ => None;
     socket_close := fun _ => Some (OSError EPIPE "Broken pipe");
     socket_read := fun _ _ _ => None;
     time_passing := fun _ => 1%Q |}.

(** A node whose pipe is broken and that accepts no new connection. *)
Definition gone : Env :=
  {| socket_open := fun _ => Some (OSError ENOENT "No such file or directory");
     socket_write := fun _ => Some (OSError EPIPE "Broken pipe");
     socket_close := fun _ => None;
     socket_read := fun _ _ _ => None;
     time_passing := fun _ => 1%Q |}.

(** A node whose pipe fails with a reset, not a broken pipe. *)
Definition resetting : Env :=
  {| socket_open := fun _ => None;
     socket_write := fun _ => Some (OSError ECONNRESET "Connection reset by peer");
     socket_close := fun _ => None;
     socket_read := fun _ _ _ => None;
     time_passing := fun _ => 1%Q |}.

(** A node that answers with a batch, a JSON array, during suspension 1. *)
Definition batching : Env :=
  node (fun k => match k with
                 | 1%nat => Some (inr (dq "[{'id': 0, 'result': 'Geth/v1.13'}]"))
                 | _ => None
                 end).

(** The strict provider connected, with its listener dead of [e]. *)
Definition listener_dead (e : exn) : World :=
  set_tasks [{| state := Failed e; raw_message := "" |}] connected.

(** The strict provider with a timeout of zero seconds, connected. *)
Definition impatient : World :=
  snd (AsyncIPCProvider.connect 3 silent (new_world (new_provider geth_ipc 0 3 false))).

End Scenario.

(** * Properties *)

(** ** The decoder always answers *)

(** The fuel given to the scanner is never used up, so that [None] from
    [raw_decode] always stands for a [JSONDecodeError]; every decoded value
    takes at least one character, so that the decode loop of the listener
    ends. *)
Section Totality.

Import Json Text.

Ltac break_in H :=
  match type of H with
  | context [match ?x with _ => _ end] => destruct x eqn:?
  end.

Lemma skip_ws_le (s : string) : (String.length (skip_ws s) <= String.length s)%nat.
Proof.
  induction s as [|c s IH]; [reflexivity|].
  cbn [skip_ws]. destruct (is_ws c); cbn [String.length]; lia.
Qed.

Lemma scanstring_shrinks (n : nat) :
  forall (s : string) (acc : list string) (str r : string),
    (String.length s <= n)%nat ->
    scanstring acc s = Scanned str r ->
    (String.length r < String.length s)%nat.
Proof.
  induction n as [|n IH]; intros s acc str r Hn H.
  - destruct s; [discriminate H | cbn in Hn; lia].
  - destruct s as [|c s]; [discriminate H|].
    cbn [scanstring] in H. cbn [String.length] in *.
    repeat (break_in H; subst; cbn [String.length] in *);
      try discriminate H;
      try (injection H as <- <-; lia);
      try (apply IH in H; cbn [String.length] in *; lia).
Qed.

Lemma take_digits_length (s ds r : string) :
  take_digits s = (ds, r) ->
  (String.length r <= String.length s)%nat.
Proof.
  revert ds r. induction s as [|c s IH]; intros ds r H; cbn [take_digits] in H.
  - injection H as <- <-. reflexivity.
  - destruct (is_digit c).
    + destruct (take_digits s) as [ds' r'] eqn:E. injection H as <- <-.
      specialize (IH _ _ eq_refl). cbn [String.length]. lia.
    + injection H as <- <-. reflexivity.
Qed.

Lemma after_prefix_length (p s r : string) :
  after_prefix p s = Some r ->
  String.length s = (String.length p + String.length r)%nat.
Proof.
  revert s. induction p as [|a p IH]; intros s H; cbn [after_prefix] in H.
  - injection H as <-. reflexivity.
  - destruct s as [|b s]; [discriminate H|].
    destruct (Ascii.eqb a b); [|discriminate H].
    cbn [String.length]. rewrite (IH _ H). reflexivity.
Qed.

Ltac break_any :=
  match goal with
  | H : context [match ?x with _ => _ end] |- _ => destruct x eqn:?
  end.

Ltac tidy :=
  repeat match goal with
    | E : take_digits _ = (_, _) |- _ => apply take_digits_length in E
    end;
  simplify_eq.

Lemma match_number_shrinks (s : string) (v : json) (r : string) :
  match_number s = Some (v, r) ->
  (String.length r < String.length s)%nat.
Proof.
  unfold match_number. intros H.
  repeat (break_any; subst; cbn [String.length] in * ); tidy;
    cbn [String.length] in *; lia.
Qed.

Ltac facts :=
  repeat match goal with
    | E : skip_ws ?s = _ |- _ =>
        let H := fresh "Hws" in pose proof (skip_ws_le s) as H; rewrite E in H; clear E
    | E : scanstring _ ?s = Scanned _ _ |- _ =>
        apply (scanstring_shrinks (String.length s) s _ _ _ (le_n _)) in E
    | E : after_prefix _ _ = Some _ |- _ => apply after_prefix_length in E
    | E : match_number _ = Some _ |- _ => apply match_number_shrinks in E
    end.

Ltac ws_bounds :=
  repeat match goal with
    | H : context [String.length (skip_ws ?s)] |- _ =>
        pose proof (skip_ws_le s);
        let x := fresh "x" in
        set (x := String.length (skip_ws s)) in *; clearbody x
    | |- context [String.length (skip_ws ?s)] =>
        pose proof (skip_ws_le s);
        let x := fresh "x" in
        set (x := String.length (skip_ws s)) in *; clearbody x
    end.

Lemma scanner_shrinks (n : nat) :
  (forall s v r, scan_once n s = Scanned v r ->
                 (String.length r < String.length s)%nat)
  /\ (forall s v r, JSONObject n s = Scanned v r ->
                    (String.length r < String.length s)%nat)
  /\ (forall ps s v r, object_pairs n ps s = Scanned v r ->
                       (String.length r < String.length s)%nat)
  /\ (forall s v r, JSONArray n s = Scanned v r ->
                    (String.length r < String.length s)%nat)
  /\ (forall vs s v r, array_items n vs s = Scanned v r ->
                       (String.length r < String.length s)%nat).
Proof.
  induction n as [|n (IH1 & IH2 & IH3 & IH4 & IH5)].
  - repeat split; intros; discriminate.
  - repeat split.
    + intros s v r H. cbn [scan_once] in H.
      repeat (break_any; subst; cbn [String.length] in * ); simplify_eq; facts;
        try (apply IH2 in H); try (apply IH4 in H);
        cbn [String.length] in *; lia.
    + intros s v r H. cbn [JSONObject] in H.
      repeat (break_any; subst; cbn [String.length] in * ); simplify_eq; facts;
        try (apply IH3 in H); cbn [String.length] in *; lia.
    + intros ps s v r H. cbn [object_pairs] in H.
      repeat (break_any; subst; cbn [String.length] in * ); simplify_eq; facts;
        repeat match goal with
          | E : scan_once n _ = Scanned _ _ |- _ => apply IH1 in E
          | E : object_pairs n _ _ = Scanned _ _ |- _ => apply IH3 in E
          end;
        ws_bounds; cbn [String.length] in *; lia.
    + intros s v r H. cbn [JSONArray] in H.
      repeat (break_any; subst; cbn [String.length] in * ); simplify_eq; facts;
        try (apply IH5 in H); cbn [String.length] in *; lia.
    + intros vs s v r H. cbn [array_items] in H.
      repeat (break_any; subst; cbn [String.length] in * ); simplify_eq; facts;
        repeat match goal with
          | E : scan_once n _ = Scanned _ _ |- _ => apply IH1 in E
          | E : array_items n _ _ = Scanned _ _ |- _ => apply IH5 in E
          end;
        ws_bounds; cbn [String.length] in *; lia.
Qed.

Lemma scanstring_total (n : nat) :
  forall (s : string) (acc : list string),
    (String.length s <= n)%nat -> scanstring acc s <> NoFuel.
Proof.
  induction n as [|n IH]; intros s acc Hn H.
  - destruct s; [discriminate H | cbn in Hn; lia].
  - destruct s as [|c s]; [discriminate H|].
    cbn [scanstring] in H. cbn [String.length] in *.
    repeat (break_in H; subst; cbn [String.length] in *);
      try discriminate H;
      try (apply IH in H; [exact H | cbn [String.length] in *; lia]).
Qed.

Ltac shrink_facts n :=
  repeat match goal with
    | E : scan_once n _ = Scanned _ _ |- _ => apply (proj1 (scanner_shrinks n)) in E
    | E : object_pairs n _ _ = Scanned _ _ |- _ =>
        apply (proj1 (proj2 (proj2 (scanner_shrinks n)))) in E
    | E : array_items n _ _ = Scanned _ _ |- _ =>
        apply (proj2 (proj2 (proj2 (proj2 (scanner_shrinks n))))) in E
    end.

Ltac out_of_fuel IH :=
  match goal with
  | E : _ = NoFuel |- _ =>
      exfalso; first
        [ apply (scanstring_total _ _ _ (le_n _)) in E; exact E
        | apply IH in E; [exact E | ws_bounds; cbn [String.length] in *; lia] ]
  end.

Lemma scanner_fuel (n : nat) :
  (forall s, (3 * String.length s + 1 <= n)%nat -> scan_once n s <> NoFuel)
  /\ (forall s, (3 * String.length s + 1 <= n)%nat -> JSONObject n s <> NoFuel)
  /\ (forall ps s, (3 * String.length s + 1 <= n)%nat -> object_pairs n ps s <> NoFuel)
  /\ (forall s, (3 * String.length s + 3 <= n)%nat -> JSONArray n s <> NoFuel)
  /\ (forall vs s, (3 * String.length s + 2 <= n)%nat -> array_items n vs s <> NoFuel).
Proof.
  induction n as [|n (IH1 & IH2 & IH3 & IH4 & IH5)].
  - repeat split; intros; lia.
  - repeat split.
    + intros s Hn H. cbn [scan_once] in H.
      repeat (break_any; subst; cbn [String.length] in * ); simplify_eq;
        first [out_of_fuel IH2 | out_of_fuel IH4].
    + intros s Hn H. cbn [JSONObject] in H.
      repeat (break_any; subst; cbn [String.length] in * ); simplify_eq; facts;
        out_of_fuel IH3.
    + intros ps s Hn H. cbn [object_pairs] in H.
      repeat (break_any; subst; cbn [String.length] in * ); simplify_eq;
        facts; shrink_facts n;
        first [out_of_fuel IH1 | out_of_fuel IH3].
    + intros s Hn H. cbn [JSONArray] in H.
      repeat (break_any; subst; cbn [String.length] in * ); simplify_eq; facts;
        out_of_fuel IH5.
    + intros vs s Hn H. cbn [array_items] in H.
      repeat (break_any; subst; cbn [String.length] in * ); simplify_eq;
        facts; shrink_facts n;
        first [out_of_fuel IH1 | out_of_fuel IH5].
Qed.

Lemma decode_fuel_suffices (s : string) : scan_once (decode_fuel s) s <> NoFuel.
Proof. apply (proj1 (scanner_fuel _)). unfold decode_fuel. lia. Qed.

Lemma raw_decode_none (s : string) :
  raw_decode s = None <-> scan_once (decode_fuel s) s = Malformed.
Proof.
  unfold raw_decode. pose proof (decode_fuel_suffices s).
  destruct (scan_once (decode_fuel s) s); split; intros; congruence.
Qed.

Lemma raw_decode_position (s : string) (v : json) (pos : nat) :
  raw_decode s = Some (v, pos) -> (0 < pos <= String.length s)%nat.
Proof.
  unfold raw_decode. intros H.
  destruct (scan_once (decode_fuel s) s) as [v' r| |] eqn:E; try discriminate H.
  apply (proj1 (scanner_shrinks _)) in E. injection H as _ <-. lia.
Qed.

Lemma drop_length (n : nat) (s : string) :
  String.length (drop n s) = (String.length s - n)%nat.
Proof.
  revert s. induction n as [|n IH]; intros s; cbn [drop].
  - lia.
  - destruct s as [|c s]; [reflexivity|]. cbn [String.length]. apply IH.
Qed.

Lemma lstrip_le_aux (n : nat) :
  forall s, (String.length s <= n)%nat ->
            (String.length (lstrip s) <= String.length s)%nat.
Proof.
  induction n as [|n IH]; intros s Hn.
  - destruct s; [reflexivity | cbn in Hn; lia].
  - destruct s as [|c s]; [reflexivity|].
    cbn [lstrip]. cbn [String.length] in *.
    repeat match goal with
      | |- context [match ?x with _ => _ end] => destruct x eqn:?
      end; subst; cbn [String.length] in *; try lia;
      match goal with
      | |- (String.length (lstrip ?t) <= _)%nat =>
          specialize (IH t); cbn [String.length] in IH; lia
      end.
Qed.

Lemma lstrip_le (s : string) : (String.length (lstrip s) <= String.length s)%nat.
Proof. exact (lstrip_le_aux _ s (le_n _)). Qed.

Lemma decode_loop_terminates (fuel : nat) :
  forall (s : string) (rp : RequestProcessor),
    (String.length s <= fuel)%nat ->
    Listener.decode_loop fuel s rp <> Listener.Exhausted.
Proof.
  induction fuel as [|fuel IH]; intros s rp Hs.
  - destruct s; [discriminate | cbn in Hs; lia].
  - destruct s as [|c s]; [discriminate|].
    cbn [Listener.decode_loop].
    destruct (raw_decode (String c s)) as [[response pos]|] eqn:E; [|discriminate].
    apply raw_decode_position in E.
    destruct response; try discriminate.
    destruct (RequestProcessor.cache_raw_response _ _ rp); [discriminate|].
    apply IH. pose proof (lstrip_le (drop pos (String c s))) as Hl.
    rewrite drop_length in Hl. lia.
Qed.

Lemma iterate_never_stuck (silence : bool) (read : exn + string) (buffer : string)
  (rp : RequestProcessor) :
  Listener.iterate silence read buffer rp <> Listener.Stuck.
Proof.
  unfold Listener.iterate, Listener.try_block.
  destruct read as [e|chunk].
  - destruct (is_Exception e), silence; discriminate.
  - destruct (Listener.to_text chunk) as [e|text].
    + destruct (is_Exception e), silence; discriminate.
    + pose proof (decode_loop_terminates _ (buffer +:+ lstrip text) rp (le_n _)) as H.
      destruct (Listener.decode_loop _ _ rp) as [b' rp'|e rp'|]; [discriminate| |congruence].
      destruct (is_Exception e), silence; discriminate.
Qed.

End Totality.

(** ** Requests before any connection *)

Section BeforeConnecting.

Import AsyncIPCProvider.

Lemma encode_rpc_request_world (method : string) (params : json) (w : World) :
  snd (encode_rpc_request method params w) = id_taken w.
Proof. reflexivity. Qed.

(** C10, as stated, fails: the request is encoded before the writer is
    looked at, and encoding takes the next request id.  After the failed call
    the provider is not what it was. *)
Lemma make_request_unconnected_takes_id :
  let w := new_world Scenario.strict_provider in
  let after := make_request 5 Scenario.silent "eth_blockNumber" (JArr []) w in
  fst after = Raise (ProviderConnectionError NotInitiated None)
  /\ provider (snd after) <> provider w
  /\ request_counter (provider (snd after)) = 1%nat.
Proof.
  cbn. repeat split. intros H. discriminate H.
Qed.

(** C10 (amended).  With [writer] still [None], [make_request] raises the
    [ProviderConnectionError] "Connection to ipc socket has not been
    initiated for the provider."  Nothing is written and nothing is opened or
    closed; of the provider only the request counter moves, by one, because
    the request has been encoded before the check. *)
Theorem make_request_before_connect
  (fuel : nat) (env : Env) (method : string) (params : json) (w : World) :
  writer (provider w) = None ->
  make_request fuel env method params w
  = (Raise (ProviderConnectionError NotInitiated None), id_taken w).
Proof.
  intros Hw. unfold make_request, bind, encode_rpc_request, get_provider.
  cbn. rewrite Hw. reflexivity.
Qed.

Lemma make_request_before_connect_witness :
  writer (provider (new_world Scenario.strict_provider)) = None
  /\ make_request 5 Scenario.silent "eth_blockNumber" (JArr [])
       (new_world Scenario.strict_provider)
     = (Raise (ProviderConnectionError NotInitiated None),
        id_taken (new_world Scenario.strict_provider)).
Proof.
  split; [reflexivity | apply make_request_before_connect; reflexivity].
Defined.

(** What [id_taken] keeps: the trace (so no byte was written), the sockets,
    the tasks, the caches, the streams. *)
Lemma id_taken_keeps (w : World) :
  trace (id_taken w) = trace w
  /\ written (trace (id_taken w)) = written (trace w)
  /\ writes (id_taken w) = writes w
  /\ opens (id_taken w) = opens w
  /\ closes (id_taken w) = closes w
  /\ tasks (id_taken w) = tasks w
  /\ reader (provider (id_taken w)) = reader (provider w)
  /\ writer (provider (id_taken w)) = writer (provider w)
  /\ _message_listener_task (provider (id_taken w)) = _message_listener_task (provider w)
  /\ _request_processor (provider (id_taken w)) = _request_processor (provider w).
Proof. repeat split. Qed.

End BeforeConnecting.

(** ** Connection with retries *)

Section Connecting.

Import AsyncIPCProvider.

Lemma sleeps_app (a b : list event) : sleeps (a ++ b) = sleeps a ++ sleeps b.
Proof.
  induction a as [|ev a IH]; [reflexivity|].
  destruct ev; simpl; rewrite IH; reflexivity.
Qed.

Lemma attempts_app (a b : list event) : attempts (a ++ b) = attempts a ++ attempts b.
Proof.
  induction a as [|ev a IH]; [reflexivity|].
  destruct ev; simpl; rewrite IH; reflexivity.
Qed.





(** Below zero the loop never reaches its limit: against a socket that
    cannot be opened, [connect()] neither returns nor raises, whatever the
    fuel. *)
Lemma connect_loop_negative_retries (env : Env) :
  always_failing env ->
  forall (fuel : nat) (a : Z) (b : float) (w : World),
    _max_connection_retries (provider w) < 0 -> 0 <= a ->
    fst (connect_loop fuel env a b w) = OutOfFuel.
Proof.
  intros Hfail. induction fuel as [|fuel IH]; intros a b w Hneg Ha.
  - cbn. replace (a =? _) with false by (symmetry; apply Z.eqb_neq; lia). reflexivity.
  - destruct (Hfail (opens w)) as (e & He & Hos).
    cbn [connect_loop].
    replace (a =? _) with false by (symmetry; apply Z.eqb_neq; lia).
    unfold async_get_ipc_socket. rewrite He, Hos.
    replace (a + 1 =? _) with false by (symmetry; apply Z.eqb_neq; lia).
    apply IH; cbn; lia.
Qed.



(** The delays of that run, computed: 1.75, then 1.75 * 1.75. *)
Lemma connect_three_attempts_delays :
  sleeps (trace (snd (connect 3 Scenario.unreachable
                        (new_world Scenario.strict_provider))))
  = [1.75%float; 3.0625%float].
Proof. vm_compute. reflexivity. Qed.

End Connecting.

(** ** Disconnecting *)

Section Disconnecting.

Import AsyncIPCProvider.

(** C7.  [disconnect()] on a provider that never connected does not return:
    its writer is [None], which the first [if] allows for, but so is its
    listener task, and [self._message_listener_task.cancel()] raises an
    [AttributeError] that the [except] clause does not list.  The caches are
    not cleared and nothing else changes. *)
Theorem disconnect_without_listener (env : Env) (w : World) :
  writer (provider w) = None ->
  _message_listener_task (provider w) = None ->
  disconnect env w = (Raise (AttributeError "cancel"), w).
Proof.
  intros Hw Ht. unfold disconnect, bind, try_except, get_provider, ret, raise.
  rewrite Hw, Ht. reflexivity.
Qed.

Lemma disconnect_without_listener_witness :
  writer (provider (new_world Scenario.strict_provider)) = None
  /\ _message_listener_task (provider (new_world Scenario.strict_provider)) = None
  /\ disconnect Scenario.silent (new_world Scenario.strict_provider)
     = (Raise (AttributeError "cancel"), new_world Scenario.strict_provider).
Proof.
  split; [reflexivity|]. split; [reflexivity|].
  apply disconnect_without_listener; reflexivity.
Defined.

(** On a connected provider whose listener runs, [disconnect()] closes the
    socket, cancels the listener, clears the caches and returns. *)
Lemma disconnect_connected (env : Env) (w : World) (socket t : nat) (buffer : string) :
  writer (provider w) = Some socket ->
  is_closing socket w = false ->
  socket_close env (closes w) = None ->
  _message_listener_task (provider w) = Some t ->
  tasks w !! t = Some {| state := Running; raw_message := buffer |} ->
  exists w',
    disconnect env w = (Ret tt, w')
    /\ writer (provider w') = None
    /\ is_closing socket w' = true
    /\ tasks w' = <[t := {| state := Cancelled; raw_message := buffer |}]> (tasks w)
    /\ _message_listener_task (provider w') = Some t
    /\ _request_processor (provider w') = RequestProcessor.empty
    /\ trace w' = trace w ++ [EvClose socket; EvLog (LogDisconnected (endpoint_uri (provider w)))].
Proof.
  intros Hw Hc Hclose Ht Htask.
  unfold disconnect, bind, try_except, get_provider, ret, raise.
  rewrite Hw, Hc. unfold close_wait_closed. rewrite Hclose.
  cbn [update_provider tell provider set_provider set_writer set_streams emit
       count_close _message_listener_task].
  rewrite Ht. unfold cancel_and_await.
  cbn [tasks emit set_provider count_close]. rewrite Htask.
  cbn. eexists. split; [reflexivity|]. cbn.
  repeat split.
  - unfold is_closing. cbn. apply bool_decide_eq_true. set_solver.
  - exact Ht.
  - rewrite <- app_assoc. reflexivity.
Qed.

(** Once that has happened, [disconnect()] is a no-op: the writer is gone,
    awaiting the cancelled task raises the [CancelledError] that the [except]
    clause lists, and the caches are empty already. *)
Lemma disconnect_again (env : Env) (w : World) (t : nat) (buffer : string) :
  writer (provider w) = None ->
  _message_listener_task (provider w) = Some t ->
  tasks w !! t = Some {| state := Cancelled; raw_message := buffer |} ->
  _request_processor (provider w) = RequestProcessor.empty ->
  disconnect env w = (Ret tt, w).
Proof.
  intros Hw Ht Htask Hrp.
  unfold disconnect, bind, try_except, get_provider, ret, raise.
  rewrite Hw, Ht. unfold cancel_and_await. rewrite Htask. cbn.
  unfold update_provider. f_equal.
  destruct w as [p ts c cl o wr cs su ck tr]. destruct p. cbn in *.
  subst. reflexivity.
Qed.

(** The listener of a strict provider that died of [e] makes [disconnect()]
    raise [e] in its turn, before the caches are cleared. *)
Lemma disconnect_after_listener_failure (env : Env) (w : World) (t : nat)
  (buffer : string) (e : exn) :
  writer (provider w) = None ->
  _message_listener_task (provider w) = Some t ->
  tasks w !! t = Some {| state := Failed e; raw_message := buffer |} ->
  e <> CancelledError -> e <> StopAsyncIteration ->
  disconnect env w = (Raise e, w).
Proof.
  intros Hw Ht Htask H1 H2.
  unfold disconnect, bind, try_except, get_provider, ret, raise.
  rewrite Hw, Ht. unfold cancel_and_await. rewrite Htask. cbn.
  destruct e; try reflexivity; congruence.
Qed.

(** The whole life of a connection, computed on the connected scenario:
    [disconnect()] returns, and a second [disconnect()] changes nothing. *)
Lemma disconnect_twice_connected :
  let first := disconnect Scenario.silent Scenario.connected in
  fst first = Ret tt
  /\ disconnect Scenario.silent (snd first) = (Ret tt, snd first).
Proof. vm_compute. split; reflexivity. Qed.

End Disconnecting.

(** ** The listener: framing *)

Section Framing.

Import Listener Text.

Lemma append_cons (a : ascii) (s t : string) : String a s +:+ t = String a (s +:+ t).
Proof. reflexivity. Qed.


Lemma append_empty_r (s : string) : s +:+ "" = s.
Proof.
  induction s as [|a s IH]; [reflexivity|].
  rewrite append_cons, IH. reflexivity.
Qed.

(** The decode loop stops at once, and keeps the buffer, when the buffer is
    empty or does not decode. *)
Lemma decode_loop_undecodable (fuel : nat) (buffer : string) (rp : RequestProcessor) :
  Json.raw_decode buffer = None ->
  decode_loop fuel buffer rp = Completed buffer rp.
Proof.
  intros H. destruct fuel, buffer; cbn [decode_loop]; try rewrite H; reflexivity.
Qed.

(** C1.  The same response, read in one chunk and read in two chunks cut
    before a space of its result: the listener stores [Geth v1] in the first
    case and [Gethv1] in the second, because [lstrip()] is applied to every
    chunk, also to one that continues a message. *)
Theorem split_payload_loses_leading_whitespace :
  Scenario.version_reply_head +:+ Scenario.version_reply_tail = Scenario.version_reply
  /\ run false [inr Scenario.version_reply] "" RequestProcessor.empty []
     = (Continue ""
          (RequestProcessor.Build
             {[ "1" := JObj [("id", JInt 1); ("result", JStr "Geth v1")] ]} ∅) None, [])
  /\ run false [inr Scenario.version_reply_head; inr Scenario.version_reply_tail]
         "" RequestProcessor.empty []
     = (Continue ""
          (RequestProcessor.Build
             {[ "1" := JObj [("id", JInt 1); ("result", JStr "Gethv1")] ]} ∅) None, []).
Proof. vm_compute. repeat split. Qed.

(** A response cut inside a character of two bytes: the first chunk is not
    UTF-8 on its own, [to_text] raises and the strict listener ends, taking
    every task with it; read in one chunk the response is stored. *)
Lemma split_payload_inside_character :
  Scenario.accent_reply_head +:+ Scenario.accent_reply_tail = Scenario.accent_reply
  /\ (exists rp, run false [inr Scenario.accent_reply] "" RequestProcessor.empty []
                 = (Continue "" rp None, [])
                 /\ is_Some (RequestProcessor._request_response_cache rp !! "2"))
  /\ run false [inr Scenario.accent_reply_head; inr Scenario.accent_reply_tail]
         "" RequestProcessor.empty []
     = (Propagate UnicodeDecodeError RequestProcessor.empty true, []).
Proof.
  split; [reflexivity|]. split; [|vm_compute; reflexivity].
  eexists. split; [vm_compute; reflexivity|]. vm_compute. eauto.
Qed.


(** Two messages in one chunk: when the buffer decodes to a first message,
    what is left decodes to a second one and nothing is left after that, the
    listener hands the first and then the second to the processor. *)
Lemma two_messages_one_chunk (fuel : nat) (buffer : string)
  (d1 d2 : list (string * json)) (p1 p2 : nat) (s1 s2 : bool)
  (rp rp1 rp2 : RequestProcessor) :
  buffer <> "" ->
  Json.raw_decode buffer = Some (JObj d1, p1) ->
  lstrip (drop p1 buffer) <> "" ->
  Json.raw_decode (lstrip (drop p1 buffer)) = Some (JObj d2, p2) ->
  lstrip (drop p2 (lstrip (drop p1 buffer))) = "" ->
  s1 = match Json.dict_get "method" d1 with
       | Some (JStr m) => String.eqb m "eth_subscription"
       | _ => false
       end ->
  s2 = match Json.dict_get "method" d2 with
       | Some (JStr m) => String.eqb m "eth_subscription"
       | _ => false
       end ->
  RequestProcessor.cache_raw_response (JObj d1) s1 rp = inr rp1 ->
  RequestProcessor.cache_raw_response (JObj d2) s2 rp1 = inr rp2 ->
  decode_loop (S (S fuel)) buffer rp = Completed "" rp2.
Proof.
  intros Hne H1 Hne' H2 Hend -> -> Hc1 Hc2.
  destruct buffer as [|c buffer]; [congruence|].
  cbn [decode_loop]. rewrite H1, Hc1.
  destruct (lstrip (drop p1 (String c buffer))) as [|c' rest] eqn:E; [congruence|].
  cbn [decode_loop]. rewrite H2, Hc2, Hend. destruct fuel; reflexivity.
Qed.

(** Two pushes of one subscription in one chunk end up in its queue, the
    first one first. *)
Lemma two_pushes_one_chunk :
  fst (run false [inr (Json.dumps (Scenario.push 1) +:+ Json.dumps (Scenario.push 2))]
           "" RequestProcessor.empty [])
  = Continue ""
      (RequestProcessor.Build ∅
         {[ dq "'0xcd0c3e8af590364c09d0fa6a1210faf5'"
            := [Scenario.push 1; Scenario.push 2] ]}) None.
Proof. vm_compute. reflexivity. Qed.

End Framing.

(** ** The listener: malformed messages *)

Section Malformed.

Import Listener Text.






End Malformed.

(** ** The listener: exceptions *)

Section ListenerExceptions.

Import Listener.

Lemma cancel_all_tasks (w : World) : tasks (cancel_all w) = map cancelled (tasks w).
Proof. reflexivity. Qed.

(** C6.  An [Exception] [e] escapes the [try] block of listener task [t],
    from the read, from [to_text], from [response.get] or from the processor.
    The processor keeps what the iteration had stored before.  Under
    [silence_listener_task_exceptions = False] every task of the loop is
    cancelled, the observed coroutine's one included, and the listener ends
    with [e].  Under [True] the error is logged, [raw_message] becomes empty
    and the task keeps running; nothing is cancelled. *)
Theorem listener_exception_policy (env : Env) (k t : nat) (w : World)
  (buffer : string) (read : exn + string) (e : exn) (rp' : RequestProcessor) :
  tasks w !! t = Some {| state := Running; raw_message := buffer |} ->
  read_attempt env k t (provider w) = Some read ->
  try_block read buffer (_request_processor (provider w)) = Excepted e rp' ->
  is_Exception e = true ->
  _request_processor (provider (step env k t w)) = rp'
  /\ if silence_listener_task_exceptions (provider w)
     then tasks (step env k t w)
          = <[t := {| state := Running; raw_message := "" |}]> (tasks w)
          /\ trace (step env k t w) = trace w ++ [EvLog (LogListenerError e)]
          /\ cancel_requested (step env k t w) = cancel_requested w
     else tasks (step env k t w)
          = <[t := {| state := Failed e; raw_message := buffer |}]>
              (map cancelled (tasks w))
          /\ trace (step env k t w) = trace w
          /\ cancel_requested (step env k t w) = true.
Proof.
  intros Htask Hread Htry He.
  unfold step, iterate. rewrite Htask, Hread, Htry, He.
  destruct (silence_listener_task_exceptions (provider w)); cbn.
  - repeat split.
  - repeat split. destruct e; try reflexivity. discriminate He.
Qed.

(** The strict provider after [connect()], with a second listener task and
    a node that resets the connection during the first suspension. *)
Lemma listener_exception_policy_witness :
  let env := Scenario.node (fun _ => Some (inl (OSError ECONNRESET "Connection reset by peer"))) in
  let e := OSError ECONNRESET "Connection reset by peer" in
  let w := set_tasks (tasks Scenario.connected ++ [{| state := Running; raw_message := "{" |}])
                     Scenario.connected in
  tasks w !! 0%nat = Some {| state := Running; raw_message := "" |}
  /\ _request_processor (provider (step env 0 0 w)) = RequestProcessor.empty
  /\ tasks (step env 0 0 w)
     = [{| state := Failed e; raw_message := "" |};
        {| state := Cancelled; raw_message := "{" |}]
  /\ trace (step env 0 0 w) = trace w
  /\ cancel_requested (step env 0 0 w) = true.
Proof.
  intros env e w. split; [reflexivity|].
  exact (listener_exception_policy env 0 0 w "" (inl e) e RequestProcessor.empty
           eq_refl eq_refl eq_refl eq_refl).
Defined.

(** The four places an exception can come from, on the lenient listener:
    the read, the decoding of the bytes, a message that is not an object, and
    the processor refusing a second response with an id it still holds.  In
    each case the error is logged, the buffer is emptied and the next message
    is delivered. *)
Lemma lenient_listener_recovers :
  let next := inr (Text.dq "{'id': 7, 'result': null}") in
  let delivered (r : iteration * list exn) :=
    match fst r with
    | Continue "" rp None => is_Some (RequestProcessor._request_response_cache rp !! "7")
    | _ => False
    end in
  delivered (run true [inl (OSError ECONNRESET "Connection reset by peer"); next]
               "" RequestProcessor.empty [])
  /\ delivered (run true [inr Scenario.accent_reply_head; next] "" RequestProcessor.empty [])
  /\ delivered (run true [inr "[1, 2]"; next] "" RequestProcessor.empty [])
  /\ delivered (run true [inr (Text.dq "{'id': 1}{'id': 1}"); next] "" RequestProcessor.empty [])
  /\ snd (run true [inr (Text.dq "{'id': 1}{'id': 1}"); next] "" RequestProcessor.empty [])
     = [DuplicateResponse "1"].
Proof. vm_compute. repeat split; eauto. Qed.

(** A [CancelledError] is no [Exception]: it passes the [except] clause in
    both configurations, nothing is logged and no other task is cancelled. *)
Lemma listener_cancellation_passes (silence : bool) (buffer : string)
  (rp : RequestProcessor) :
  iterate silence (inl CancelledError) buffer rp = Propagate CancelledError rp false.
Proof. reflexivity. Qed.

End ListenerExceptions.

(** ** Requests: the write *)

Section Writing.

Import AsyncIPCProvider.

Lemma encode_rpc_request_eq (method : string) (params : json) (w : World) :
  encode_rpc_request method params w = (Ret (request_data method params w), id_taken w).
Proof. reflexivity. Qed.

Lemma write_drain_fails (env : Env) (socket : nat) (data : string) (w : World) (e : exn) :
  socket_write env (writes w) = Some e ->
  write_drain env socket data w = (Raise e, count_write w).
Proof. intros H. unfold write_drain. rewrite H. reflexivity. Qed.

Lemma write_drain_succeeds (env : Env) (socket : nat) (data : string) (w : World) :
  socket_write env (writes w) = None ->
  write_drain env socket data w = (Ret tt, emit (EvWrite socket data) (count_write w)).
Proof. intros H. unfold write_drain. rewrite H. reflexivity. Qed.

(** Runs [make_request] up to the outcome of its first write. *)
Ltac enter_request Hw :=
  unfold make_request, bind, get_provider;
  rewrite encode_rpc_request_eq;
  cbn [provider id_taken set_provider writer set_request_counter];
  rewrite Hw; unfold try_except.

(** [make_request] when the first write succeeds. *)
Lemma make_request_written (fuel : nat) (env : Env) (method : string) (params : json)
  (w : World) (socket : nat) :
  writer (provider w) = Some socket ->
  socket_write env (writes w) = None ->
  make_request fuel env method params w
  = await_response fuel env (request_data method params w)
      (emit (EvWrite socket (request_data method params w)) (count_write (id_taken w))).
Proof.
  intros Hw Hwrite. enter_request Hw.
  rewrite (write_drain_succeeds env _ _ (id_taken w) Hwrite). reflexivity.
Qed.

Lemma reset_succeeds (env : Env) (socket : nat) (w : World) :
  writer (provider w) = Some socket ->
  socket_close env (closes w) = None ->
  socket_open env (opens w) = None ->
  _reset_socket env w = (Ret tt, after_reset socket w).
Proof.
  intros Hw Hclose Hopen.
  unfold _reset_socket, bind, get_provider. rewrite Hw.
  unfold close_wait_closed. rewrite Hclose.
  unfold async_get_ipc_socket.
  cbn [opens emit count_close provider]. rewrite Hopen. reflexivity.
Qed.

(** What a successful reset does, counted. *)
Lemma after_reset_effects (socket : nat) (w : World) :
  trace (after_reset socket w)
  = trace w ++ [EvClose socket; EvOpen (ipc_path (provider w))]
  /\ closes (after_reset socket w) = S (closes w)
  /\ opens (after_reset socket w) = S (opens w)
  /\ writes (after_reset socket w) = writes w
  /\ reader (provider (after_reset socket w)) = Some (opens w)
  /\ writer (provider (after_reset socket w)) = Some (opens w)
  /\ tasks (after_reset socket w) = tasks w
  /\ _message_listener_task (provider (after_reset socket w))
     = _message_listener_task (provider w)
  /\ _request_processor (provider (after_reset socket w)) = _request_processor (provider w).
Proof. cbn. rewrite <- app_assoc. repeat split. Qed.




(** The other failures of the first write.  An [OSError] that is not a
    broken pipe is caught and dropped: the call goes on to await a response
    to a request that was never sent.  Nothing in this is promised by the
    design, which wants such an error raised. *)
Lemma other_oserror_is_dropped (fuel : nat) (env : Env) (method : string)
  (params : json) (w : World) (socket : nat) (n : Z) (how : string) :
  writer (provider w) = Some socket ->
  socket_write env (writes w) = Some (OSError n how) ->
  n <> EPIPE ->
  make_request fuel env method params w
  = await_response fuel env (request_data method params w) (count_write (id_taken w)).
Proof.
  intros Hw H1 Hn. enter_request Hw.
  rewrite (write_drain_fails env _ _ (id_taken w) _ H1). cbn [errno_of].
  replace (n =? EPIPE) with false by (symmetry; apply Z.eqb_neq; exact Hn).
  reflexivity.
Qed.

End Writing.

(** ** Requests: awaiting the response *)

Section Awaiting.

Import AsyncIPCProvider.

Lemma after_suspensions_S (env : Env) (i : nat) (w : World) :
  after_suspensions env (S i) w = after_suspensions env i (suspend env w).
Proof. unfold after_suspensions. apply Nat.iter_succ_r. Qed.

(** The polling loop passes over the suspensions at which it is still
    waiting. *)
Lemma polling_skips (env : Env) (request_id : json) (deadline : Q) (n : nat) :
  forall (fuel : nat) (w : World),
    (forall i, (i < n)%nat ->
               still_waiting deadline (RequestProcessor.generate_cache_key request_id)
                 (after_suspensions env (S i) w)) ->
    _match_response_id_to_request_id (n + fuel) env request_id deadline w
    = _match_response_id_to_request_id fuel env request_id deadline
        (after_suspensions env n w).
Proof.
  induction n as [|n IH]; intros fuel w Hquiet; [reflexivity|].
  destruct (Hquiet 0%nat ltac:(lia)) as (Hc & Hd & Hk).
  change (after_suspensions env 1 w) with (suspend env w) in Hc, Hd, Hk.
  unfold cached in Hk.
  cbn [Nat.add _match_response_id_to_request_id].
  rewrite Hc, Hd, Hk.
  rewrite after_suspensions_S. apply IH.
  intros i Hi. rewrite <- after_suspensions_S. apply Hquiet. lia.
Qed.


(** The suspension at which the timer of [wait_for] is due. *)
Lemma polling_times_out (env : Env) (request_id : json) (deadline : Q)
  (fuel : nat) (w : World) :
  cancel_requested (suspend env w) = false ->
  Qle_bool deadline (clock (suspend env w)) = true ->
  _match_response_id_to_request_id (S fuel) env request_id deadline w
  = (Raise AsyncioTimeoutError, suspend env w).
Proof.
  intros Hc Hd. cbn [_match_response_id_to_request_id]. rewrite Hc, Hd. reflexivity.
Qed.

Lemma request_id_of_eq (data : string) (d : list (string * json)) (request_id : json)
  (w : World) :
  Json.loads data = Some (JObj d) ->
  Json.dict_get "id" d = Some request_id ->
  request_id_of data w = (Ret request_id, w).
Proof. intros Hl Hg. unfold request_id_of. rewrite Hl, Hg. reflexivity. Qed.



End Awaiting.

(** ** The liveness probe *)

Section Probing.

Import AsyncIPCProvider.

(** C8, as stated, fails.  The node accepts the request and never answers:
    the probe ends in [TimeExhausted], which [is_connected] does not catch.
    It is raised as it is, whether [show_traceback] is set or not; the answer
    is neither [False] nor a [ProviderConnectionError]. *)
Lemma is_connected_times_out :
  fst (is_connected 20 Scenario.silent false Scenario.connected)
  = Raise (TimeExhausted (JInt 0) 10)
  /\ fst (is_connected 20 Scenario.silent true Scenario.connected)
     = Raise (TimeExhausted (JInt 0) 10).
Proof. vm_compute. split; reflexivity. Qed.

(** C8 (amended).  [is_connected] makes the request [web3_clientVersion]
    with no parameters.  If the request returns, the answer is [True].  If
    it raises an [OSError] or a [ProviderConnectionError], the answer is
    [False], or, with [show_traceback], a [ProviderConnectionError] that
    quotes the error and has it as context.  Anything else the request
    raises, [TimeExhausted] for one, is raised unchanged, with or without
    [show_traceback]. *)
Theorem is_connected_outcomes (fuel : nat) (env : Env) (show_traceback : bool)
  (w : World) :
  is_connected fuel env show_traceback w
  = match make_request fuel env "web3_clientVersion" (JArr []) w with
    | (Ret _, w') => (Ret true, w')
    | (Raise e, w') =>
        if is_OSError e || is_ProviderConnectionError e then
          if show_traceback
          then (Raise (ProviderConnectionError ProblemConnecting (Some e)), w')
          else (Ret false, w')
        else (Raise e, w')
    | (OutOfFuel, w') => (OutOfFuel, w')
    end.
Proof.
  unfold is_connected, try_except, bind.
  destruct (make_request fuel env "web3_clientVersion" (JArr []) w) as [[v|e|] w'];
    try reflexivity.
  destruct (is_OSError e || is_ProviderConnectionError e), show_traceback; reflexivity.
Qed.

(** The probe on a provider that never connected, on one whose pipe is
    broken for good, and on a node that answers. *)
Lemma is_connected_examples :
  fst (is_connected 20 Scenario.silent false (new_world Scenario.strict_provider))
  = Ret false
  /\ fst (is_connected 20 Scenario.silent true (new_world Scenario.strict_provider))
     = Raise (ProviderConnectionError ProblemConnecting
                (Some (ProviderConnectionError NotInitiated None)))
  /\ fst (is_connected 20 Scenario.flaky false Scenario.connected) = Ret false
  /\ fst (is_connected 20 Scenario.flaky true Scenario.connected)
     = Raise (ProviderConnectionError ProblemConnecting
                (Some (OSError ECONNRESET "Connection reset by peer")))
  /\ fst (is_connected 20 Scenario.answering false Scenario.connected) = Ret true.
Proof. vm_compute. repeat split. Qed.

End Probing.

(** ** Iterating over the connection *)

Section Iterating.

Import AsyncIPCProvider PersistentConnectionWeb3.

(** C9, as stated, fails.  The first step probes the node and yields.  The
    caller's body then disconnects the provider.  The second step yields all
    the same: the writer is still [None] and no connection has been
    attempted since. *)
Lemma later_step_yields_unconnected :
  let first := __aiter__ 20 Scenario.answering Created ANext Scenario.connected in
  let body := snd (disconnect Scenario.answering (snd first)) in
  let second := __aiter__ 20 Scenario.answering AtYield ANext body in
  fst first = (Yielded, AtYield)
  /\ fst second = (Yielded, AtYield)
  /\ writer (provider (snd second)) = None
  /\ opens (snd second) = opens Scenario.connected.
Proof. vm_compute. repeat split. Qed.

(** C9 (amended).  Only the first step looks after the connection: it
    probes with [is_connected()], connects if the answer is [False], and
    yields the handle when neither raised.  Every later step yields the
    handle and leaves the world as it is, without probing or connecting; so
    does a step into which the caller throws an [Exception]: the sequence
    does not end. *)
Theorem iteration_steps (fuel : nat) (env : Env) (w : World) :
  (forall w1, is_connected fuel env false w = (Ret true, w1) ->
              __aiter__ fuel env Created ANext w = (Yielded, AtYield, w1))
  /\ (forall w1 w2, is_connected fuel env false w = (Ret false, w1) ->
                    connect fuel env w1 = (Ret tt, w2) ->
                    __aiter__ fuel env Created ANext w = (Yielded, AtYield, w2))
  /\ __aiter__ fuel env AtYield ANext w = (Yielded, AtYield, w)
  /\ (forall e, is_Exception e = true ->
                __aiter__ fuel env AtYield (AThrow e) w = (Yielded, AtYield, w)).
Proof.
  repeat split.
  - intros w1 H. cbn [__aiter__]. rewrite H. reflexivity.
  - intros w1 w2 H1 H2. cbn [__aiter__]. rewrite H1, H2. reflexivity.
  - intros e He. cbn [__aiter__]. rewrite He. reflexivity.
Qed.

(** First steps on a node that answers the probe and on a provider that has
    yet to connect, and a later step with an error thrown in. *)
Lemma iteration_steps_witness :
  (exists w1, __aiter__ 20 Scenario.answering Created ANext Scenario.connected
              = (Yielded, AtYield, w1))
  /\ (exists w2, __aiter__ 20 Scenario.silent Created ANext
                   (new_world Scenario.strict_provider)
                 = (Yielded, AtYield, w2)
                 /\ writer (provider w2) = Some 0%nat)
  /\ __aiter__ 20 Scenario.silent AtYield (AThrow (RuntimeError "body failed"))
       Scenario.connected
     = (Yielded, AtYield, Scenario.connected).
Proof.
  split; [|split].
  - eexists.
    refine (proj1 (iteration_steps 20 Scenario.answering Scenario.connected) _ _).
    vm_compute. reflexivity.
  - eexists. split.
    + refine (proj1 (proj2 (iteration_steps 20 Scenario.silent
                              (new_world Scenario.strict_provider))) _ _ _ _).
      * vm_compute. reflexivity.
      * vm_compute. reflexivity.
    + reflexivity.
  - exact (proj2 (proj2 (proj2 (iteration_steps 20 Scenario.silent Scenario.connected)))
             (RuntimeError "body failed") eq_refl).
Defined.

(** What is not an [Exception] ends the sequence: [aclose()] throws
    [GeneratorExit] into the generator, a cancelled caller
    [CancelledError]. *)
Lemma iteration_ends (fuel : nat) (env : Env) (w : World) (e : exn) :
  is_Exception e = false ->
  __aiter__ fuel env AtYield (AThrow e) w = (Raised e, Closed, w).
Proof. intros He. cbn [__aiter__]. rewrite He. reflexivity. Qed.

End Iterating.

(** * Further properties *)

(** ** [connect]: the other ways out of the loop *)

Section ConnectingFurther.

Import AsyncIPCProvider.

Lemma after_failed_attempts_effects (k : nat) :
  forall (b : float) (w : World),
    provider (after_failed_attempts k b w) = provider w
    /\ tasks (after_failed_attempts k b w) = tasks w
    /\ opens (after_failed_attempts k b w) = (opens w + k)%nat
    /\ closing (after_failed_attempts k b w) = closing w
    /\ sleeps (trace (after_failed_attempts k b w))
       = sleeps (trace w) ++ backoff_series k b
    /\ attempts (trace (after_failed_attempts k b w))
       = attempts (trace w) ++ replicate k (ipc_path (provider w)).
Proof.
  induction k as [|k IH]; intros b w; cbn [after_failed_attempts].
  - cbn. rewrite !app_nil_r. repeat split. lia.
  - destruct (IH (b * _backoff_rate_change)%float
                (emit (EvSleep b)
                   (emit (EvLog (LogRetrying (endpoint_uri (provider w)) b))
                      (emit (EvOpen (ipc_path (provider w))) (count_open w)))))
      as (Hp & Ht & Ho & Hc & Hs & Ha).
    rewrite Hp, Ht, Ho, Hc, Hs, Ha. cbn [provider tasks opens closing trace emit count_open].
    rewrite !sleeps_app, !attempts_app. cbn. rewrite !app_nil_r, <- !app_assoc. cbn.
    repeat split. lia.
Qed.

(** [k] failed attempts, none of them the last one allowed, lead back to the
    head of the loop. *)
Lemma connect_loop_retries (env : Env) (k : nat) :
  forall (fuel : nat) (a : Z) (b : float) (w : World),
    next_attempts_fail env k w ->
    (forall j, (j <= k)%nat -> a + Z.of_nat j <> _max_connection_retries (provider w)) ->
    exists b',
      connect_loop (k + fuel) env a b w
      = connect_loop fuel env (a + Z.of_nat k) b' (after_failed_attempts k b w).
Proof.
  induction k as [|k IH]; intros fuel a b w Hfail Hlimit.
  - exists b. cbn [after_failed_attempts Nat.add]. f_equal. lia.
  - destruct (Hfail 0%nat ltac:(lia)) as (e & He & Hos).
    rewrite Nat.add_0_r in He.
    cbn [Nat.add connect_loop after_failed_attempts].
    pose proof (Hlimit 0%nat ltac:(lia)) as H0.
    pose proof (Hlimit 1%nat ltac:(lia)) as H1.
    replace (a =? _max_connection_retries (provider w)) with false
      by (symmetry; apply Z.eqb_neq; lia).
    unfold async_get_ipc_socket. rewrite He, Hos.
    replace (a + 1 =? _max_connection_retries (provider w)) with false
      by (symmetry; apply Z.eqb_neq; lia).
    match goal with
    | |- context [connect_loop (k + fuel) env ?a' ?b' ?w'] =>
        destruct (IH fuel a' b' w') as (b'' & Hrun)
    end.
    + intros i Hi. destruct (Hfail (S i) ltac:(lia)) as (e' & He' & Hos').
      exists e'. split; [|exact Hos']. cbn [opens emit count_open].
      rewrite <- He'. f_equal. lia.
    + intros j Hj. cbn [provider emit count_open].
      specialize (Hlimit (S j) ltac:(lia)). lia.
    + exists b''. rewrite Hrun. f_equal. lia.
Qed.

Lemma connect_loop_succeeds (fuel : nat) (env : Env) (a : Z) (b : float) (w : World) :
  a <> _max_connection_retries (provider w) ->
  socket_open env (opens w) = None ->
  connect_loop (S fuel) env a b w = (Ret tt, after_connecting w).
Proof.
  intros Ha Hopen. cbn [connect_loop].
  replace (a =? _max_connection_retries (provider w)) with false
    by (symmetry; apply Z.eqb_neq; lia).
  unfold async_get_ipc_socket. rewrite Hopen. reflexivity.
Qed.

Lemma connect_loop_raises (fuel : nat) (env : Env) (a : Z) (b : float) (w : World)
  (e : exn) :
  a <> _max_connection_retries (provider w) ->
  socket_open env (opens w) = Some e ->
  is_OSError e = false ->
  connect_loop (S fuel) env a b w
  = (Raise e, emit (EvOpen (ipc_path (provider w))) (count_open w)).
Proof.
  intros Ha Hopen Hos. cbn [connect_loop].
  replace (a =? _max_connection_retries (provider w)) with false
    by (symmetry; apply Z.eqb_neq; lia).
  unfold async_get_ipc_socket. rewrite Hopen, Hos. reflexivity.
Qed.

(** X1.  When the first [k] attempts fail with an [OSError] and the next one
    succeeds, within the limit, [connect()] returns after [k + 1] attempts
    and [k] sleeps of 1.75, 1.75 * 1.75, ... seconds.  Reader and writer are
    on the socket of the last attempt, and one listener task has been added,
    running, with an empty buffer; the provider points to it. *)
Theorem connect_succeeds_after_retries (k fuel : nat) (env : Env) (w : World) :
  next_attempts_fail env k w ->
  socket_open env (opens w + k) = None ->
  Z.of_nat k < _max_connection_retries (provider w)
  \/ _max_connection_retries (provider w) < 0 ->
  (k < fuel)%nat ->
  exists w',
    connect fuel env w = (Ret tt, w')
    /\ opens w' = (opens w + k + 1)%nat
    /\ sleeps (trace w') = sleeps (trace w) ++ backoff_series k 1.75%float
    /\ reader (provider w') = Some (opens w + k)%nat
    /\ writer (provider w') = Some (opens w + k)%nat
    /\ tasks w' = tasks w ++ [{| state := Running; raw_message := "" |}]
    /\ _message_listener_task (provider w') = Some (length (tasks w))
    /\ _request_processor (provider w') = _request_processor (provider w).
Proof.
  intros Hfail Hopen Hlimit Hfuel.
  destruct (connect_loop_retries env k (fuel - k) 0 1.75%float w Hfail) as (b' & Hrun).
  { intros j Hj. lia. }
  destruct (after_failed_attempts_effects k 1.75%float w) as (Hp & Ht & Ho & Hc & Hs & Ha).
  exists (after_connecting (after_failed_attempts k 1.75%float w)).
  unfold connect. replace fuel with (k + (fuel - k))%nat at 1 by lia. rewrite Hrun.
  replace (fuel - k)%nat with (S (fuel - k - 1)) by lia.
  rewrite connect_loop_succeeds; [|rewrite Hp; lia|rewrite Ho; exact Hopen].
  split; [reflexivity|].
  unfold after_connecting.
  cbn [opens trace provider tasks emit count_open set_provider set_tasks reader writer
       set_streams set_listener_task _message_listener_task _request_processor].
  rewrite Ho, Ht, Hp, sleeps_app, Hs. cbn. rewrite app_nil_r.
  repeat split. lia.
Qed.

Lemma connect_succeeds_after_retries_witness :
  exists w',
    connect 3 Scenario.late (new_world Scenario.strict_provider) = (Ret tt, w')
    /\ opens w' = 3%nat
    /\ sleeps (trace w') = [1.75%float; (1.75 * 1.75)%float]
    /\ reader (provider w') = Some 2%nat
    /\ writer (provider w') = Some 2%nat
    /\ tasks w' = [{| state := Running; raw_message := "" |}]
    /\ _message_listener_task (provider w') = Some 0%nat
    /\ _request_processor (provider w') = RequestProcessor.empty.
Proof.
  refine (connect_succeeds_after_retries 2 3 Scenario.late
            (new_world Scenario.strict_provider) _ eq_refl _ _).
  - intros i Hi. destruct i as [|[|i]]; [eexists; split; reflexivity .. | lia].
  - left. cbn. lia.
  - lia.
Defined.

(** X2.  An exception of an attempt that is not an [OSError] is not retried:
    [connect()] raises it at once, unchanged, without sleeping, and leaves the
    provider and the tasks as they were. *)
Theorem connect_other_error_not_retried (k fuel : nat) (env : Env) (w : World)
  (e : exn) :
  next_attempts_fail env k w ->
  socket_open env (opens w + k) = Some e ->
  is_OSError e = false ->
  Z.of_nat k < _max_connection_retries (provider w)
  \/ _max_connection_retries (provider w) < 0 ->
  (k < fuel)%nat ->
  exists w',
    connect fuel env w = (Raise e, w')
    /\ opens w' = (opens w + k + 1)%nat
    /\ sleeps (trace w') = sleeps (trace w) ++ backoff_series k 1.75%float
    /\ provider w' = provider w
    /\ tasks w' = tasks w.
Proof.
  intros Hfail Hopen Hos Hlimit Hfuel.
  destruct (connect_loop_retries env k (fuel - k) 0 1.75%float w Hfail) as (b' & Hrun).
  { intros j Hj. lia. }
  destruct (after_failed_attempts_effects k 1.75%float w) as (Hp & Ht & Ho & Hc & Hs & Ha).
  eexists.
  unfold connect. replace fuel with (k + (fuel - k))%nat at 1 by lia. rewrite Hrun.
  replace (fuel - k)%nat with (S (fuel - k - 1)) by lia.
  rewrite (connect_loop_raises _ _ _ _ _ e); [|rewrite Hp; lia|rewrite Ho; exact Hopen|exact Hos].
  split; [reflexivity|].
  cbn [opens trace provider tasks emit count_open].
  rewrite Ho, Ht, Hp, sleeps_app, Hs. cbn. rewrite app_nil_r.
  repeat split. lia.
Qed.

Lemma connect_other_error_not_retried_witness :
  exists w',
    connect 3 Scenario.misused (new_world Scenario.strict_provider)
    = (Raise TypeError, w')
    /\ opens w' = 1%nat
    /\ sleeps (trace w') = []
    /\ provider w' = Scenario.strict_provider
    /\ tasks w' = [].
Proof.
  refine (connect_other_error_not_retried 0 3 Scenario.misused
            (new_world Scenario.strict_provider) TypeError _ eq_refl eq_refl _ _).
  - intros i Hi. lia.
  - left. cbn. lia.
  - lia.
Defined.

(** X3.  With a limit below zero the attempt counter never meets the limit:
    against a socket that cannot be opened [connect()] neither returns nor
    raises, however long it runs. *)
Theorem connect_never_gives_up_below_zero (fuel : nat) (env : Env) (w : World) :
  _max_connection_retries (provider w) < 0 ->
  always_failing env ->
  fst (connect fuel env w) = OutOfFuel.
Proof.
  intros Hneg Hfail. unfold connect.
  apply connect_loop_negative_retries; [exact Hfail | exact Hneg | lia].
Qed.

Lemma connect_never_gives_up_below_zero_witness :
  fst (connect 50 Scenario.unreachable
         (new_world (new_provider Scenario.geth_ipc 10 (-1) false)))
  = OutOfFuel.
Proof.
  apply connect_never_gives_up_below_zero.
  - cbn. lia.
  - intros k. eexists. split; reflexivity.
Defined.

(** What [connect] leaves alone, step by step. *)
Lemma connect_loop_leaves_rest_alone (env : Env) (fuel : nat) :
  forall (a : Z) (b : float) (w : World),
    closing (snd (connect_loop fuel env a b w)) = closing w
    /\ closes (snd (connect_loop fuel env a b w)) = closes w
    /\ writes (snd (connect_loop fuel env a b w)) = writes w
    /\ cancel_requested (snd (connect_loop fuel env a b w)) = cancel_requested w
    /\ _request_processor (provider (snd (connect_loop fuel env a b w)))
       = _request_processor (provider w)
    /\ exists new, tasks (snd (connect_loop fuel env a b w)) = tasks w ++ new.
Proof.
  induction fuel as [|fuel IH]; intros a b w.
  - cbn [connect_loop].
    destruct (a =? _max_connection_retries (provider w));
      cbn; repeat split; exists []; rewrite app_nil_r; reflexivity.
  - cbn [connect_loop].
    destruct (a =? _max_connection_retries (provider w)).
    { cbn; repeat split; exists []; rewrite app_nil_r; reflexivity. }
    unfold async_get_ipc_socket.
    destruct (socket_open env (opens w)) as [e|].
    + destruct (is_OSError e).
      * destruct (a + 1 =? _max_connection_retries (provider w)).
        { cbn; repeat split; exists []; rewrite app_nil_r; reflexivity. }
        match goal with
        | |- context [connect_loop fuel env ?a' ?b' ?w'] =>
            destruct (IH a' b' w') as (H1 & H2 & H3 & H4 & H5 & new & H6)
        end.
        rewrite H1, H2, H3, H4, H5, H6. cbn. repeat split. exists new. reflexivity.
      * cbn; repeat split; exists []; rewrite app_nil_r; reflexivity.
    + cbn. repeat split. eexists. reflexivity.
Qed.

(** X4.  However it ends, [connect()] closes no socket, cancels no task and
    does not touch the caches: every task that was there is still there, in
    the state it had.  In particular, on a provider that is connected
    already it adds a second listener beside the first one, which keeps
    running, and leaves the first socket open. *)
Theorem connect_leaves_rest_alone (fuel : nat) (env : Env) (w : World) :
  closing (snd (connect fuel env w)) = closing w
  /\ closes (snd (connect fuel env w)) = closes w
  /\ _request_processor (provider (snd (connect fuel env w)))
     = _request_processor (provider w)
  /\ cancel_requested (snd (connect fuel env w)) = cancel_requested w
  /\ (forall t task, tasks w !! t = Some task ->
                     tasks (snd (connect fuel env w)) !! t = Some task).
Proof.
  unfold connect.
  destruct (connect_loop_leaves_rest_alone env fuel 0 1.75%float w)
    as (H1 & H2 & _ & H4 & H5 & new & H6).
  repeat split; try assumption.
  intros t task Ht. rewrite H6. apply lookup_app_l_Some. exact Ht.
Qed.

(** A second [connect()] on the connected scenario: two listeners run, and
    the provider has let go of the first socket without closing it. *)
Lemma connect_twice_two_listeners :
  let w := snd (connect 3 Scenario.silent Scenario.connected) in
  tasks w = [{| state := Running; raw_message := "" |};
             {| state := Running; raw_message := "" |}]
  /\ writer (provider w) = Some 1%nat
  /\ closing w = [].
Proof. vm_compute. repeat split. Qed.

End ConnectingFurther.

(** ** [disconnect]: what is torn down, and when it is not *)

Section DisconnectingFurther.

Import AsyncIPCProvider.

(** X5.  [disconnect()] on a connected provider whose listener runs: the
    socket is closed, [writer] becomes [None], the listener is cancelled and
    the caches are emptied.  [reader] is not reset: awaiting the cancelled
    task raises [CancelledError], which skips [self.reader = None]. *)
Theorem disconnect_tears_down (env : Env) (w : World) (socket t : nat)
  (buffer : string) :
  writer (provider w) = Some socket ->
  is_closing socket w = false ->
  socket_close env (closes w) = None ->
  _message_listener_task (provider w) = Some t ->
  tasks w !! t = Some {| state := Running; raw_message := buffer |} ->
  exists w',
    disconnect env w = (Ret tt, w')
    /\ writer (provider w') = None
    /\ reader (provider w') = reader (provider w)
    /\ closing w' = socket :: closing w
    /\ tasks w' = <[t := {| state := Cancelled; raw_message := buffer |}]> (tasks w)
    /\ _request_processor (provider w') = RequestProcessor.empty
    /\ opens w' = opens w.
Proof.
  intros Hw Hc Hclose Ht Htask.
  unfold disconnect, bind, try_except, get_provider, ret, raise.
  rewrite Hw, Hc. unfold close_wait_closed. rewrite Hclose.
  cbn [update_provider tell provider set_provider set_writer set_streams emit
       count_close _message_listener_task].
  rewrite Ht. unfold cancel_and_await.
  cbn [tasks emit set_provider count_close]. rewrite Htask.
  cbn. eexists. split; [reflexivity|]. cbn. repeat split.
Qed.

Lemma disconnect_tears_down_witness :
  exists w',
    disconnect Scenario.silent Scenario.connected = (Ret tt, w')
    /\ writer (provider w') = None
    /\ reader (provider w') = Some 0%nat
    /\ closing w' = [0%nat]
    /\ tasks w' = [{| state := Cancelled; raw_message := "" |}]
    /\ _request_processor (provider w') = RequestProcessor.empty
    /\ opens w' = 1%nat.
Proof.
  exact (disconnect_tears_down Scenario.silent Scenario.connected 0 0 ""
           eq_refl eq_refl eq_refl eq_refl eq_refl).
Defined.

(** X6.  After such a [disconnect()], any further [disconnect()] returns and
    changes nothing at all. *)
Theorem disconnect_idempotent (env env' : Env) (w : World) (socket t : nat)
  (buffer : string) :
  writer (provider w) = Some socket ->
  is_closing socket w = false ->
  socket_close env (closes w) = None ->
  _message_listener_task (provider w) = Some t ->
  tasks w !! t = Some {| state := Running; raw_message := buffer |} ->
  disconnect env' (snd (disconnect env w)) = (Ret tt, snd (disconnect env w)).
Proof.
  intros Hw Hc Hclose Ht Htask.
  destruct (disconnect_connected env w socket t buffer Hw Hc Hclose Ht Htask)
    as (w' & Hrun & Hw' & _ & Htasks & Ht' & Hrp & _).
  rewrite Hrun. cbn [snd].
  apply (disconnect_again env' w' t buffer Hw' Ht'); [|exact Hrp].
  rewrite Htasks. apply list_lookup_insert_eq.
  apply lookup_lt_Some in Htask. exact Htask.
Qed.

Lemma disconnect_idempotent_witness :
  disconnect Scenario.flaky (snd (disconnect Scenario.silent Scenario.connected))
  = (Ret tt, snd (disconnect Scenario.silent Scenario.connected)).
Proof.
  exact (disconnect_idempotent Scenario.silent Scenario.flaky Scenario.connected 0 0 ""
           eq_refl eq_refl eq_refl eq_refl eq_refl).
Defined.

(** X7.  When closing the socket fails, [disconnect()] raises that error and
    stops there: [writer] keeps the socket, the listener is not cancelled
    and the caches are not cleared. *)
Theorem disconnect_close_failure (env : Env) (w : World) (socket : nat) (e : exn) :
  writer (provider w) = Some socket ->
  is_closing socket w = false ->
  socket_close env (closes w) = Some e ->
  disconnect env w = (Raise e, emit (EvClose socket) (count_close socket w))
  /\ writer (provider (snd (disconnect env w))) = Some socket
  /\ tasks (snd (disconnect env w)) = tasks w
  /\ _request_processor (provider (snd (disconnect env w)))
     = _request_processor (provider w).
Proof.
  intros Hw Hc Hclose.
  assert (H : disconnect env w = (Raise e, emit (EvClose socket) (count_close socket w))).
  { unfold disconnect, bind, try_except, get_provider, ret, raise.
    rewrite Hw, Hc. unfold close_wait_closed. rewrite Hclose. reflexivity. }
  rewrite H. repeat split. exact Hw.
Qed.

Lemma disconnect_close_failure_witness :
  disconnect Scenario.unclosable Scenario.connected
  = (Raise (OSError EPIPE "Broken pipe"),
     emit (EvClose 0) (count_close 0 Scenario.connected))
  /\ writer (provider (snd (disconnect Scenario.unclosable Scenario.connected)))
     = Some 0%nat
  /\ tasks (snd (disconnect Scenario.unclosable Scenario.connected))
     = [{| state := Running; raw_message := "" |}]
  /\ _request_processor (provider (snd (disconnect Scenario.unclosable Scenario.connected)))
     = RequestProcessor.empty.
Proof.
  exact (disconnect_close_failure Scenario.unclosable Scenario.connected 0
           (OSError EPIPE "Broken pipe") eq_refl eq_refl eq_refl).
Defined.

(** X8.  When the listener has ended with an exception [e] of its own, as
    the strict listener does, [disconnect()] closes the socket and then
    raises [e] from [await self._message_listener_task]: the caches are not
    cleared. *)
Theorem disconnect_reraises_listener_failure (env : Env) (w : World)
  (socket t : nat) (buffer : string) (e : exn) :
  writer (provider w) = Some socket ->
  is_closing socket w = false ->
  socket_close env (closes w) = None ->
  _message_listener_task (provider w) = Some t ->
  tasks w !! t = Some {| state := Failed e; raw_message := buffer |} ->
  e <> CancelledError -> e <> StopAsyncIteration ->
  disconnect env w = (Raise e, after_closing socket w)
  /\ _request_processor (provider (snd (disconnect env w)))
     = _request_processor (provider w).
Proof.
  intros Hw Hc Hclose Ht Htask H1 H2.
  assert (H : disconnect env w = (Raise e, after_closing socket w)).
  { unfold disconnect, bind, try_except, get_provider, ret, raise.
    rewrite Hw, Hc. unfold close_wait_closed. rewrite Hclose.
    cbn [update_provider tell provider set_provider set_writer set_streams emit
         count_close _message_listener_task].
    rewrite Ht. unfold cancel_and_await.
    cbn [tasks emit set_provider count_close]. rewrite Htask.
    cbn. destruct e; try reflexivity; congruence. }
  rewrite H. split; reflexivity.
Qed.

Lemma disconnect_reraises_listener_failure_witness :
  disconnect Scenario.silent (Scenario.listener_dead (AttributeError "get"))
  = (Raise (AttributeError "get"),
     after_closing 0 (Scenario.listener_dead (AttributeError "get")))
  /\ _request_processor
       (provider (snd (disconnect Scenario.silent
                         (Scenario.listener_dead (AttributeError "get")))))
     = RequestProcessor.empty.
Proof.
  refine (disconnect_reraises_listener_failure Scenario.silent
            (Scenario.listener_dead (AttributeError "get")) 0 0 ""
            (AttributeError "get") eq_refl eq_refl eq_refl eq_refl eq_refl _ _);
    intros H; discriminate H.
Defined.

(** X9.  A writer that is closing already is passed over: [disconnect()]
    closes nothing and does not reset [writer], but still cancels the
    listener and clears the caches. *)
Theorem disconnect_skips_closing_writer (env : Env) (w : World) (socket t : nat)
  (buffer : string) :
  writer (provider w) = Some socket ->
  is_closing socket w = true ->
  _message_listener_task (provider w) = Some t ->
  tasks w !! t = Some {| state := Running; raw_message := buffer |} ->
  exists w',
    disconnect env w = (Ret tt, w')
    /\ writer (provider w') = Some socket
    /\ closes w' = closes w
    /\ trace w' = trace w
    /\ tasks w' = <[t := {| state := Cancelled; raw_message := buffer |}]> (tasks w)
    /\ _request_processor (provider w') = RequestProcessor.empty.
Proof.
  intros Hw Hc Ht Htask.
  unfold disconnect, bind, try_except, get_provider, ret, raise.
  rewrite Hw, Hc, Ht. unfold cancel_and_await. rewrite Htask.
  cbn. eexists. split; [reflexivity|]. cbn. repeat split. exact Hw.
Qed.

Lemma disconnect_skips_closing_writer_witness :
  exists w',
    disconnect Scenario.silent (count_close 0 Scenario.connected) = (Ret tt, w')
    /\ writer (provider w') = Some 0%nat
    /\ closes w' = 1%nat
    /\ trace w' = trace Scenario.connected
    /\ tasks w' = [{| state := Cancelled; raw_message := "" |}]
    /\ _request_processor (provider w') = RequestProcessor.empty.
Proof.
  exact (disconnect_skips_closing_writer Scenario.silent
           (count_close 0 Scenario.connected) 0 0 "" eq_refl eq_refl eq_refl eq_refl).
Defined.

End DisconnectingFurther.

(** ** [_reset_socket] and the write of [make_request] *)

Section ResettingFurther.

Import AsyncIPCProvider.

(** X10.  A successful [_reset_socket()] closes the old socket once, opens
    one new socket and puts reader and writer on it.  The listener task, its
    buffer, the caches and the request counter are as before: the listener
    is not torn down. *)
Theorem reset_keeps_listener_state (env : Env) (w : World) (socket : nat) :
  writer (provider w) = Some socket ->
  socket_close env (closes w) = None ->
  socket_open env (opens w) = None ->
  exists w',
    _reset_socket env w = (Ret tt, w')
    /\ reader (provider w') = Some (opens w)
    /\ writer (provider w') = Some (opens w)
    /\ closing w' = socket :: closing w
    /\ trace w' = trace w ++ [EvClose socket; EvOpen (ipc_path (provider w))]
    /\ tasks w' = tasks w
    /\ _message_listener_task (provider w') = _message_listener_task (provider w)
    /\ _request_processor (provider w') = _request_processor (provider w)
    /\ request_counter (provider w') = request_counter (provider w).
Proof.
  intros Hw Hclose Hopen. exists (after_reset socket w).
  split; [apply reset_succeeds; assumption|].
  cbn. rewrite <- app_assoc. repeat split.
Qed.

Lemma reset_keeps_listener_state_witness :
  exists w',
    _reset_socket Scenario.silent Scenario.connected = (Ret tt, w')
    /\ reader (provider w') = Some 1%nat
    /\ writer (provider w') = Some 1%nat
    /\ closing w' = [0%nat]
    /\ trace w' = trace Scenario.connected ++ [EvClose 0; EvOpen Scenario.geth_ipc]
    /\ tasks w' = [{| state := Running; raw_message := "" |}]
    /\ _message_listener_task (provider w') = Some 0%nat
    /\ _request_processor (provider w') = RequestProcessor.empty
    /\ request_counter (provider w') = 0%nat.
Proof.
  exact (reset_keeps_listener_state Scenario.silent Scenario.connected 0
           eq_refl eq_refl eq_refl).
Defined.

(** X11.  A [_reset_socket()] that fails leaves reader and writer on the old
    socket, which is closing by then.  If closing fails, no new socket is
    asked for; if opening fails, the error of the opening is raised. *)
Theorem reset_failure_keeps_old_streams (env : Env) (w : World) (socket : nat)
  (e : exn) :
  writer (provider w) = Some socket ->
  (socket_close env (closes w) = Some e ->
   _reset_socket env w = (Raise e, emit (EvClose socket) (count_close socket w)))
  /\ (socket_close env (closes w) = None ->
      socket_open env (opens w) = Some e ->
      _reset_socket env w
      = (Raise e,
         emit (EvOpen (ipc_path (provider w)))
           (count_open (emit (EvClose socket) (count_close socket w)))))
  /\ (socket_close env (closes w) = Some e
      \/ (socket_close env (closes w) = None /\ socket_open env (opens w) = Some e) ->
      writer (provider (snd (_reset_socket env w))) = Some socket
      /\ reader (provider (snd (_reset_socket env w))) = reader (provider w)
      /\ is_closing socket (snd (_reset_socket env w)) = true).
Proof.
  intros Hw.
  assert (H1 : socket_close env (closes w) = Some e ->
               _reset_socket env w
               = (Raise e, emit (EvClose socket) (count_close socket w))).
  { intros Hclose. unfold _reset_socket, bind, get_provider. rewrite Hw.
    unfold close_wait_closed. rewrite Hclose. reflexivity. }
  assert (H2 : socket_close env (closes w) = None ->
               socket_open env (opens w) = Some e ->
               _reset_socket env w
               = (Raise e,
                  emit (EvOpen (ipc_path (provider w)))
                    (count_open (emit (EvClose socket) (count_close socket w))))).
  { intros Hclose Hopen. unfold _reset_socket, bind, get_provider. rewrite Hw.
    unfold close_wait_closed. rewrite Hclose. unfold async_get_ipc_socket.
    cbn [opens emit count_close provider]. rewrite Hopen. reflexivity. }
  split; [exact H1|]. split; [exact H2|].
  intros [Hclose|[Hclose Hopen]].
  - rewrite (H1 Hclose). cbn. repeat split; [exact Hw|].
    unfold is_closing. cbn. apply bool_decide_eq_true. set_solver.
  - rewrite (H2 Hclose Hopen). cbn. repeat split; [exact Hw|].
    unfold is_closing. cbn. apply bool_decide_eq_true. set_solver.
Qed.

Lemma reset_failure_keeps_old_streams_witness :
  writer (provider (snd (_reset_socket Scenario.gone Scenario.connected))) = Some 0%nat
  /\ reader (provider (snd (_reset_socket Scenario.gone Scenario.connected))) = Some 0%nat
  /\ is_closing 0 (snd (_reset_socket Scenario.gone Scenario.connected)) = true.
Proof.
  refine (proj2 (proj2 (reset_failure_keeps_old_streams Scenario.gone Scenario.connected 0
                          (OSError ENOENT "No such file or directory") eq_refl)) _).
  right. split; reflexivity.
Defined.

(** Runs [make_request] up to its first write. *)
Ltac start_request Hw :=
  unfold make_request, bind, get_provider;
  rewrite encode_rpc_request_eq;
  cbn [provider id_taken set_provider writer set_request_counter];
  rewrite Hw; unfold try_except.

(** X12.  When the write breaks the pipe and the reset that follows fails
    with [e], [make_request] raises [e]: the write is not tried again and
    nothing is awaited. *)
Theorem broken_pipe_reset_failure (fuel : nat) (env : Env) (method : string)
  (params : json) (w : World) (socket : nat) (how : string) (e : exn) :
  writer (provider w) = Some socket ->
  socket_write env (writes w) = Some (OSError EPIPE how) ->
  socket_close env (closes w) = Some e
  \/ (socket_close env (closes w) = None /\ socket_open env (opens w) = Some e) ->
  fst (make_request fuel env method params w) = Raise e
  /\ writes (snd (make_request fuel env method params w)) = S (writes w)
  /\ written (trace (snd (make_request fuel env method params w))) = written (trace w)
  /\ suspensions (snd (make_request fuel env method params w)) = suspensions w.
Proof.
  intros Hw H1 Hreset.
  destruct (reset_failure_keeps_old_streams env (count_write (id_taken w)) socket e Hw)
    as (Ha & Hb & _).
  start_request Hw.
  rewrite (write_drain_fails env _ _ (id_taken w) _ H1). cbn [errno_of].
  rewrite Z.eqb_refl. unfold bind.
  destruct Hreset as [Hclose|[Hclose Hopen]].
  - rewrite (Ha Hclose). cbn. repeat split.
    clear. induction (trace w) as [|ev tr IH]; [reflexivity|].
    destruct ev; cbn; rewrite ?IH; reflexivity.
  - rewrite (Hb Hclose Hopen). cbn. repeat split.
    clear. induction (trace w) as [|ev tr IH]; [reflexivity|].
    destruct ev; cbn; rewrite ?IH; reflexivity.
Qed.

Lemma broken_pipe_reset_failure_witness :
  fst (make_request 5 Scenario.gone "eth_blockNumber" (JArr []) Scenario.connected)
  = Raise (OSError ENOENT "No such file or directory")
  /\ writes (snd (make_request 5 Scenario.gone "eth_blockNumber" (JArr [])
                    Scenario.connected)) = 1%nat
  /\ written (trace (snd (make_request 5 Scenario.gone "eth_blockNumber" (JArr [])
                            Scenario.connected))) = []
  /\ suspensions (snd (make_request 5 Scenario.gone "eth_blockNumber" (JArr [])
                         Scenario.connected)) = 0%nat.
Proof.
  refine (broken_pipe_reset_failure 5 Scenario.gone "eth_blockNumber" (JArr [])
            Scenario.connected 0 "Broken pipe"
            (OSError ENOENT "No such file or directory") eq_refl eq_refl _).
  right. split; reflexivity.
Defined.

(** X13.  When the write fails with an [OSError] that is not a broken pipe,
    the error is dropped and the call awaits a response although nothing was
    sent.  On a node that accepts the request id but never answers, it ends
    in [TimeExhausted]. *)
Lemma other_oserror_is_dropped_witness :
  make_request 20 Scenario.resetting "eth_blockNumber" (JArr []) Scenario.connected
  = await_response 20 Scenario.resetting
      (request_data "eth_blockNumber" (JArr []) Scenario.connected)
      (count_write (id_taken Scenario.connected))
  /\ fst (make_request 20 Scenario.resetting "eth_blockNumber" (JArr [])
            Scenario.connected)
     = Raise (TimeExhausted (JInt 0) 10).
Proof.
  split.
  - refine (other_oserror_is_dropped 20 Scenario.resetting "eth_blockNumber" (JArr [])
              Scenario.connected 0 ECONNRESET "Connection reset by peer"
              eq_refl eq_refl _).
    intros H. discriminate H.
  - vm_compute. reflexivity.
Defined.

End ResettingFurther.

(** ** Awaiting the response: cancellation and the timeout at its edge *)

Section AwaitingFurther.

Import AsyncIPCProvider.

Lemma polling_cancelled (env : Env) (request_id : json) (deadline : Q)
  (fuel : nat) (w : World) :
  cancel_requested (suspend env w) = true ->
  _match_response_id_to_request_id (S fuel) env request_id deadline w
  = (Raise CancelledError, suspend env w).
Proof.
  intros Hc. cbn [_match_response_id_to_request_id]. rewrite Hc. reflexivity.
Qed.

(** X14.  A request that is waiting for its response when the strict
    listener dies is cancelled with every other task: [make_request] raises
    [CancelledError] at its next suspension, not [TimeExhausted], and long
    before the timeout. *)
Theorem awaiting_request_is_cancelled (fuel n : nat) (env : Env) (method : string)
  (params : json) (w : World) (socket : nat) (d : list (string * json))
  (request_id : json) :
  writer (provider w) = Some socket ->
  socket_write env (writes w) = None ->
  Json.loads (request_data method params w) = Some (JObj d) ->
  Json.dict_get "id" d = Some request_id ->
  let sent := emit (EvWrite socket (request_data method params w))
                (count_write (id_taken w)) in
  let key := RequestProcessor.generate_cache_key request_id in
  let deadline := (clock w + inject_Z (request_timeout (provider w)))%Q in
  (n < fuel)%nat ->
  (forall i, (i < n)%nat -> still_waiting deadline key (after_suspensions env (S i) sent)) ->
  cancel_requested (after_suspensions env (S n) sent) = true ->
  make_request fuel env method params w
  = (Raise CancelledError, after_suspensions env (S n) sent).
Proof.
  intros Hw Hwrite Hloads Hid sent key deadline Hfuel Hquiet Hc.
  rewrite (make_request_written fuel env method params w socket Hw Hwrite).
  fold sent. unfold await_response, bind.
  rewrite (request_id_of_eq _ d request_id sent Hloads Hid).
  unfold _get_response_for_request_id, try_except.
  change (clock sent) with (clock w).
  change (request_timeout (provider sent)) with (request_timeout (provider w)).
  fold deadline.
  replace fuel with (n + S (fuel - S n))%nat by lia.
  rewrite (polling_skips env request_id deadline n _ sent Hquiet).
  change (after_suspensions env (S n) sent)
    with (suspend env (after_suspensions env n sent)) in *.
  rewrite (polling_cancelled env request_id deadline _ _ Hc). reflexivity.
Qed.

(** The node answers the request with a batch, which the strict listener
    cannot take: the listener ends with [AttributeError] and the waiting
    request is cancelled during the second suspension. *)
Lemma awaiting_request_is_cancelled_witness :
  exists w',
    make_request 20 Scenario.batching "web3_clientVersion" (JArr []) Scenario.connected
    = (Raise CancelledError, w')
    /\ tasks w' = [{| state := Failed (AttributeError "get"); raw_message := "" |}]
    /\ suspensions w' = 2%nat.
Proof.
  eexists. split.
  - refine (awaiting_request_is_cancelled 20 1 Scenario.batching
              "web3_clientVersion" (JArr []) Scenario.connected 0
              [("id", JInt 0); ("method", JStr "web3_clientVersion");
               ("params", JArr [])] (JInt 0)
              eq_refl eq_refl eq_refl eq_refl _ _ eq_refl).
    + lia.
    + intros i Hi. destruct i as [|i]; [vm_compute; auto | lia].
  - vm_compute. split; reflexivity.
Defined.

Lemma step_clock (env : Env) (k t : nat) (w : World) :
  clock (Listener.step env k t w) = clock w.
Proof.
  unfold Listener.step.
  destruct (tasks w !! t) as [[[] buffer]|]; try reflexivity.
  destruct (Listener.read_attempt env k t (provider w)) as [r|]; [|reflexivity].
  destruct (Listener.iterate _ r buffer _) as [b rp [e|]|e rp []|]; reflexivity.
Qed.

Lemma steps_clock (env : Env) (k : nat) (l : list nat) :
  forall w, clock (fold_left (fun w' t => Listener.step env k t w') l w) = clock w.
Proof.
  induction l as [|t l IH]; intros w; [reflexivity|].
  cbn [fold_left]. rewrite IH. apply step_clock.
Qed.

Lemma suspend_clock (env : Env) (w : World) :
  clock (suspend env w) = (clock w + time_passing env (suspensions w))%Q.
Proof. unfold suspend. rewrite steps_clock. reflexivity. Qed.

(** X15.  With a [request_timeout] of zero or less every request whose write
    succeeds ends in [TimeExhausted] at its first suspension, whether or not
    its response is in the cache by then: the wait is given up before the
    cache is looked at. *)
Theorem non_positive_timeout_always_expires (fuel : nat) (env : Env)
  (method : string) (params : json) (w : World) (socket : nat)
  (d : list (string * json)) (request_id : json) :
  writer (provider w) = Some socket ->
  socket_write env (writes w) = None ->
  Json.loads (request_data method params w) = Some (JObj d) ->
  Json.dict_get "id" d = Some request_id ->
  request_timeout (provider w) <= 0 ->
  (0 <= time_passing env (suspensions w))%Q ->
  let sent := emit (EvWrite socket (request_data method params w))
                (count_write (id_taken w)) in
  cancel_requested (suspend env sent) = false ->
  (0 < fuel)%nat ->
  make_request fuel env method params w
  = (Raise (TimeExhausted request_id (request_timeout (provider w))), suspend env sent).
Proof.
  intros Hw Hwrite Hloads Hid Htimeout Hdt sent Hc Hfuel.
  rewrite (make_request_written fuel env method params w socket Hw Hwrite).
  fold sent. unfold await_response, bind.
  rewrite (request_id_of_eq _ d request_id sent Hloads Hid).
  unfold _get_response_for_request_id, try_except.
  change (clock sent) with (clock w).
  change (request_timeout (provider sent)) with (request_timeout (provider w)).
  destruct fuel as [|fuel]; [lia|].
  rewrite polling_times_out; [reflexivity | exact Hc |].
  apply Qle_bool_iff. rewrite suspend_clock.
  change (clock sent) with (clock w). change (suspensions sent) with (suspensions w).
  apply Qplus_le_r.
  apply Qle_trans with (y := inject_Z 0); [|exact Hdt].
  rewrite <- Zle_Qle. exact Htimeout.
Qed.

(** The response to request 0 is in the cache before the request is made;
    with a timeout of zero seconds the call times out all the same, and the
    response stays in the cache. *)
Lemma non_positive_timeout_always_expires_witness :
  let early :=
    set_provider
      (set_request_processor
         (RequestProcessor.Build {[ "0" := JObj [("id", JInt 0); ("result", JStr "Geth")] ]} ∅)
         (provider Scenario.impatient))
      Scenario.impatient in
  exists w',
    make_request 5 Scenario.silent "web3_clientVersion" (JArr []) early
    = (Raise (TimeExhausted (JInt 0) 0), w')
    /\ cached w' "0" = Some (JObj [("id", JInt 0); ("result", JStr "Geth")]).
Proof.
  intros early. eexists. split.
  - refine (non_positive_timeout_always_expires 5 Scenario.silent
              "web3_clientVersion" (JArr []) early 0
              [("id", JInt 0); ("method", JStr "web3_clientVersion");
               ("params", JArr [])] (JInt 0)
              eq_refl eq_refl eq_refl eq_refl _ _ eq_refl _).
    + cbn. lia.
    + cbn. discriminate.
    + lia.
  - vm_compute. reflexivity.
Defined.

End AwaitingFurther.

(** ** The listener: what an iteration leaves in the buffer *)

Section FramingFurther.

Import Listener Text.

Lemma decode_loop_completed (fuel : nat) :
  forall (s b : string) (rp rp' : RequestProcessor),
    decode_loop fuel s rp = Completed b rp' ->
    b = "" \/ Json.raw_decode b = None.
Proof.
  induction fuel as [|fuel IH]; intros s b rp rp' H.
  - destruct s as [|c s]; cbn [decode_loop] in H; [injection H as <- _; auto|].
    destruct (Json.raw_decode (String c s)) as [[response pos]|] eqn:E.
    + destruct response; try discriminate H.
      destruct (RequestProcessor.cache_raw_response _ _ rp); discriminate H.
    + injection H as <- _. auto.
  - destruct s as [|c s]; cbn [decode_loop] in H; [injection H as <- _; auto|].
    destruct (Json.raw_decode (String c s)) as [[response pos]|] eqn:E.
    + destruct response; try discriminate H.
      destruct (RequestProcessor.cache_raw_response _ _ rp); [discriminate H|].
      exact (IH _ _ _ _ H).
    + injection H as <- _. auto.
Qed.

(** X16.  When an iteration of the listener ends and the listener goes on,
    no complete message is left waiting at the front of the buffer: the
    buffer is empty, or it does not decode (yet). *)
Theorem listener_leaves_no_complete_message (silence : bool) (read : exn + string)
  (buffer buffer' : string) (rp rp' : RequestProcessor) (logged : option exn) :
  iterate silence read buffer rp = Continue buffer' rp' logged ->
  buffer' = "" \/ Json.raw_decode buffer' = None.
Proof.
  unfold iterate. intros H.
  destruct (try_block read buffer rp) as [b rp1|e rp1|] eqn:E; [| |discriminate H].
  - injection H as <- _ _. unfold try_block in E.
    destruct read as [e|chunk]; [discriminate E|].
    destruct (to_text chunk) as [e|text]; [discriminate E|].
    exact (decode_loop_completed _ _ _ _ _ E).
  - destruct (is_Exception e), silence; cbn in H; try discriminate H.
    injection H as <- _ _. auto.
Qed.

Lemma listener_leaves_no_complete_message_witness :
  iterate false (inr (dq "{'id': 1}  {'id': 2}{'id")) "" RequestProcessor.empty
  = Continue (dq "{'id") (RequestProcessor.Build {[ "1" := JObj [("id", JInt 1)];
                                                    "2" := JObj [("id", JInt 2)] ]} ∅) None
  /\ (dq "{'id" = "" \/ Json.raw_decode (dq "{'id") = None).
Proof.
  assert (H : iterate false (inr (dq "{'id': 1}  {'id': 2}{'id")) "" RequestProcessor.empty
              = Continue (dq "{'id")
                  (RequestProcessor.Build {[ "1" := JObj [("id", JInt 1)];
                                             "2" := JObj [("id", JInt 2)] ]} ∅) None)
    by (vm_compute; reflexivity).
  split; [exact H|].
  exact (listener_leaves_no_complete_message _ _ _ _ _ _ _ H).
Defined.

(** X17.  A read that brings nothing, the empty bytes of an end of file or
    white space only, changes neither the buffer nor the processor, and does
    not end the listener: at the end of the stream it goes on reading. *)
Theorem empty_read_changes_nothing (silence : bool) (chunk buffer : string)
  (rp : RequestProcessor) :
  utf8_valid chunk = true ->
  lstrip chunk = "" ->
  buffer = "" \/ Json.raw_decode buffer = None ->
  iterate silence (inr chunk) buffer rp = Continue buffer rp None.
Proof.
  intros Hvalid Hstrip Hbuffer.
  unfold iterate, try_block, to_text. rewrite Hvalid, Hstrip, append_empty_r.
  destruct Hbuffer as [->|Hnone]; [reflexivity|].
  rewrite (decode_loop_undecodable _ _ _ Hnone). reflexivity.
Qed.

Lemma empty_read_changes_nothing_witness :
  iterate false (inr "") (dq "{'id': 1, 'res") RequestProcessor.empty
  = Continue (dq "{'id': 1, 'res") RequestProcessor.empty None.
Proof.
  apply empty_read_changes_nothing; [reflexivity | reflexivity |].
  right. vm_compute. reflexivity.
Defined.

(** X18.  A message that is valid JSON but not an object (a batch, say, which
    is an array) makes [response.get] raise [AttributeError].  The strict
    listener ends and cancels every task; the lenient one logs the error and
    throws the whole buffer away, with whatever followed the message. *)
Theorem non_object_message_raises (silence : bool) (chunk buffer : string)
  (rp : RequestProcessor) (v : json) (pos : nat) :
  utf8_valid chunk = true ->
  Json.raw_decode (buffer +:+ lstrip chunk) = Some (v, pos) ->
  is_object v = false ->
  iterate silence (inr chunk) buffer rp
  = if silence
    then Continue "" rp (Some (AttributeError "get"))
    else Propagate (AttributeError "get") rp true.
Proof.
  intros Hvalid Hdec Hobj.
  unfold iterate, try_block, to_text. rewrite Hvalid.
  destruct (buffer +:+ lstrip chunk) as [|c s] eqn:E.
  - vm_compute in Hdec. discriminate Hdec.
  - cbn [decode_loop String.length]. rewrite Hdec.
    destruct v; try discriminate Hobj; destruct silence; reflexivity.
Qed.

Lemma non_object_message_raises_witness :
  iterate true (inr (dq "[{'id': 1}, {'id': 2}] {'id': 3}")) "" RequestProcessor.empty
  = Continue "" RequestProcessor.empty (Some (AttributeError "get")).
Proof.
  refine (non_object_message_raises true (dq "[{'id': 1}, {'id': 2}] {'id': 3}") ""
            RequestProcessor.empty (JArr [JObj [("id", JInt 1)]; JObj [("id", JInt 2)]])
            22 eq_refl _ eq_refl).
  vm_compute. reflexivity.
Defined.


(** X20.  Two messages in one chunk are handed to the processor one after
    the other, the first one first, and the buffer is empty afterwards. *)
Lemma two_messages_one_chunk_witness :
  decode_loop 2 (dq "{'id': 1}  {'id': 2}") RequestProcessor.empty
  = Completed ""
      (RequestProcessor.Build {[ "1" := JObj [("id", JInt 1)];
                                 "2" := JObj [("id", JInt 2)] ]} ∅).
Proof.
  refine (two_messages_one_chunk 0 (dq "{'id': 1}  {'id': 2}")
            [("id", JInt 1)] [("id", JInt 2)] 9 9 false false
            RequestProcessor.empty
            (RequestProcessor.Build {[ "1" := JObj [("id", JInt 1)] ]} ∅)
            _ _ _ _ _ _ eq_refl eq_refl _ _);
    try (vm_compute; reflexivity); vm_compute; discriminate.
Defined.

End FramingFurther.

(** ** The facade: probing, iterating and scoped use *)

Section FacadeFurther.

Import AsyncIPCProvider PersistentConnectionWeb3.

(** The sockets closing after [disconnect()] has torn down a connection. *)
Lemma disconnect_connected_closing (env : Env) (w : World) (socket t : nat)
  (buffer : string) :
  writer (provider w) = Some socket ->
  is_closing socket w = false ->
  socket_close env (closes w) = None ->
  _message_listener_task (provider w) = Some t ->
  tasks w !! t = Some {| state := Running; raw_message := buffer |} ->
  closing (snd (disconnect env w)) = socket :: closing w.
Proof.
  intros Hw Hc Hclose Ht Htask.
  unfold disconnect, bind, try_except, get_provider, ret, raise.
  rewrite Hw, Hc. unfold close_wait_closed. rewrite Hclose.
  cbn [update_provider tell provider set_provider set_writer set_streams emit
       count_close _message_listener_task].
  rewrite Ht. unfold cancel_and_await.
  cbn [tasks emit set_provider count_close]. rewrite Htask. reflexivity.
Qed.

Lemma make_request_unconnected (fuel : nat) (env : Env) (method : string)
  (params : json) (w : World) :
  writer (provider w) = None ->
  make_request fuel env method params w
  = (Raise (ProviderConnectionError NotInitiated None), id_taken w).
Proof.
  intros Hw. unfold make_request, bind, get_provider.
  rewrite encode_rpc_request_eq.
  cbn [provider id_taken set_provider writer set_request_counter].
  rewrite Hw. reflexivity.
Qed.

(** X21.  On a provider without writer the probe does not touch any socket:
    [is_connected()] answers [False], and with [show_traceback] it raises a
    [ProviderConnectionError] that has the "not initiated" error as context.
    Either way the probe has used up one request id. *)
Theorem probe_of_unconnected_provider (fuel : nat) (env : Env) (w : World) :
  writer (provider w) = None ->
  is_connected fuel env false w = (Ret false, id_taken w)
  /\ is_connected fuel env true w
     = (Raise (ProviderConnectionError ProblemConnecting
                 (Some (ProviderConnectionError NotInitiated None))), id_taken w).
Proof.
  intros Hw. unfold is_connected, try_except, bind.
  rewrite (make_request_unconnected fuel env _ _ w Hw). split; reflexivity.
Qed.

Lemma probe_of_unconnected_provider_witness :
  is_connected 5 Scenario.unreachable false (new_world Scenario.strict_provider)
  = (Ret false, id_taken (new_world Scenario.strict_provider))
  /\ is_connected 5 Scenario.unreachable true (new_world Scenario.strict_provider)
     = (Raise (ProviderConnectionError ProblemConnecting
                 (Some (ProviderConnectionError NotInitiated None))),
        id_taken (new_world Scenario.strict_provider)).
Proof.
  exact (probe_of_unconnected_provider 5 Scenario.unreachable
           (new_world Scenario.strict_provider) eq_refl).
Defined.

(** X22.  The first step of the iteration on a provider without writer
    always goes through [connect()]: it yields when [connect()] returns, and
    when [connect()] raises, the step raises the same error and the sequence
    is over. *)
Theorem first_step_connects_unconnected_provider (fuel : nat) (env : Env) (w : World) :
  writer (provider w) = None ->
  __aiter__ fuel env Created ANext w
  = match connect fuel env (id_taken w) with
    | (Ret _, w2) => (Yielded, AtYield, w2)
    | (Raise e, w2) => (Raised e, Closed, w2)
    | (OutOfFuel, w2) => (NoAnswer, Created, w2)
    end.
Proof.
  intros Hw. cbn [__aiter__]. unfold is_connected, try_except, bind.
  rewrite (make_request_unconnected fuel env _ _ w Hw). cbn [is_OSError orb
    is_ProviderConnectionError ret].
  destruct (connect fuel env (id_taken w)) as [[[]|e|] w2]; reflexivity.
Qed.

(** A fresh provider: the first step connects and yields on a node that is
    there, and raises the error of [connect()] on one that is not. *)
Lemma first_step_connects_unconnected_provider_witness :
  fst (__aiter__ 5 Scenario.silent Created ANext (new_world Scenario.strict_provider))
  = (Yielded, AtYield)
  /\ fst (__aiter__ 5 Scenario.unreachable Created ANext
            (new_world Scenario.strict_provider))
     = (Raised (ProviderConnectionError (RetriesExceeded None 3)
                  (Some (OSError ENOENT "No such file or directory"))), Closed).
Proof.
  split.
  - rewrite (first_step_connects_unconnected_provider 5 Scenario.silent
               (new_world Scenario.strict_provider) eq_refl).
    vm_compute. reflexivity.
  - vm_compute. reflexivity.
Defined.



(** X24.  Scoped use.  When [__aenter__] has connected and the body has left
    the connection in place, the connection is torn down on the way out
    whether the body returned or raised: the socket is closed, the listener
    cancelled, the caches emptied.  What the body returned or raised is what
    the whole [async with] returns or raises. *)
Theorem async_with_always_disconnects {A : Type} (fuel : nat) (env : Env)
  (body : M A) (w w1 w2 : World) (r : result A) (socket t : nat) (buffer : string) :
  __aenter__ fuel env w = (Ret tt, w1) ->
  body w1 = (r, w2) ->
  r <> OutOfFuel ->
  writer (provider w2) = Some socket ->
  is_closing socket w2 = false ->
  socket_close env (closes w2) = None ->
  _message_listener_task (provider w2) = Some t ->
  tasks w2 !! t = Some {| state := Running; raw_message := buffer |} ->
  exists w3,
    async_with fuel env body w = (r, w3)
    /\ writer (provider w3) = None
    /\ is_closing socket w3 = true
    /\ tasks w3 = <[t := {| state := Cancelled; raw_message := buffer |}]> (tasks w2)
    /\ _request_processor (provider w3) = RequestProcessor.empty.
Proof.
  intros Henter Hbody Hr Hw Hc Hclose Ht Htask.
  destruct (disconnect_connected env w2 socket t buffer Hw Hc Hclose Ht Htask)
    as (w3 & Hrun & Hw3 & Hc3 & Htasks & _ & Hrp & _).
  exists w3. unfold async_with. rewrite Henter, Hbody. unfold __aexit__.
  destruct r as [a|e|]; [| |congruence]; rewrite Hrun; repeat split; assumption.
Qed.

(** A body that makes a request and gets its answer, and a body that
    fails. *)
Lemma async_with_always_disconnects_witness :
  (exists w3,
      async_with 20 Scenario.answering
        (make_request 20 Scenario.answering "web3_clientVersion" (JArr []))
        (new_world Scenario.strict_provider)
      = (Ret (JObj [("id", JInt 0); ("result", JStr "Geth/v1.13")]), w3)
      /\ writer (provider w3) = None
      /\ is_closing 0 w3 = true
      /\ tasks w3 = [{| state := Cancelled; raw_message := "" |}]
      /\ _request_processor (provider w3) = RequestProcessor.empty)
  /\ fst (async_with 20 Scenario.silent (raise (A := unit) (RuntimeError "body failed"))
            (new_world Scenario.strict_provider))
     = Raise (RuntimeError "body failed").
Proof.
  split.
  - refine (async_with_always_disconnects 20 Scenario.answering
              (make_request 20 Scenario.answering "web3_clientVersion" (JArr []))
              (new_world Scenario.strict_provider) Scenario.connected
              (snd (make_request 20 Scenario.answering "web3_clientVersion" (JArr [])
                      Scenario.connected))
              (Ret (JObj [("id", JInt 0); ("result", JStr "Geth/v1.13")])) 0 0 ""
              _ _ _ _ _ _ _ _);
      try (vm_compute; reflexivity).
    intros H. discriminate H.
  - vm_compute. reflexivity.
Defined.

(** X25.  Scoped use of a provider that is connected already: [__aenter__]
    connects again without looking, and the way out tears down the new
    connection only.  The first socket stays open and the first listener
    keeps running, both out of the provider's reach. *)
Theorem async_with_on_connected_provider_leaks (fuel : nat) (env : Env) (w : World)
  (socket0 t0 : nat) (buffer0 : string) :
  writer (provider w) = Some socket0 ->
  is_closing socket0 w = false ->
  socket0 <> opens w ->
  is_closing (opens w) w = false ->
  tasks w !! t0 = Some {| state := Running; raw_message := buffer0 |} ->
  _max_connection_retries (provider w) <> 0 ->
  socket_open env (opens w) = None ->
  socket_close env (closes w) = None ->
  (0 < fuel)%nat ->
  exists w3,
    async_with fuel env (ret tt) w = (Ret tt, w3)
    /\ writer (provider w3) = None
    /\ is_closing (opens w) w3 = true
    /\ is_closing socket0 w3 = false
    /\ tasks w3 !! t0 = Some {| state := Running; raw_message := buffer0 |}
    /\ tasks w3 !! length (tasks w) = Some {| state := Cancelled; raw_message := "" |}.
Proof.
  intros Hw Hc0 Hne Hfresh Htask Hlimit Hopen Hclose Hfuel.
  assert (Henter : __aenter__ fuel env w = (Ret tt, after_connecting w)).
  { unfold __aenter__, connect. destruct fuel as [|fuel]; [lia|].
    apply connect_loop_succeeds; [lia | exact Hopen]. }
  destruct (disconnect_connected env (after_connecting w) (opens w) (length (tasks w)) "")
    as (w3 & Hrun & Hw3 & Hc3 & Htasks & _ & _ & _).
  { reflexivity. }
  { exact Hfresh. }
  { exact Hclose. }
  { reflexivity. }
  { cbn. apply list_lookup_middle. reflexivity. }
  exists w3. unfold async_with. rewrite Henter. unfold ret, __aexit__. rewrite Hrun.
  pose proof (lookup_lt_Some _ _ _ Htask) as Hlt.
  assert (Hclosing : closing w3 = opens w :: closing w).
  { change w3 with (snd (Ret tt, w3)). rewrite <- Hrun.
    apply (disconnect_connected_closing env (after_connecting w) (opens w)
             (length (tasks w)) "");
      [reflexivity | exact Hfresh | exact Hclose | reflexivity |].
    cbn. apply list_lookup_middle. reflexivity. }
  repeat split.
  - exact Hw3.
  - exact Hc3.
  - unfold is_closing in *. rewrite Hclosing.
    apply bool_decide_eq_false. apply bool_decide_eq_false in Hc0.
    intros [Heq|Hin]%elem_of_cons; [exact (Hne Heq) | exact (Hc0 Hin)].
  - rewrite Htasks. cbn. rewrite list_lookup_insert_ne by lia.
    apply lookup_app_l_Some. exact Htask.
  - rewrite Htasks. cbn. apply list_lookup_insert_eq.
    rewrite length_app. cbn. lia.
Qed.

Lemma async_with_on_connected_provider_leaks_witness :
  exists w3,
    async_with 3 Scenario.silent (ret tt) Scenario.connected = (Ret tt, w3)
    /\ writer (provider w3) = None
    /\ is_closing 1 w3 = true
    /\ is_closing 0 w3 = false
    /\ tasks w3 !! 0%nat = Some {| state := Running; raw_message := "" |}
    /\ tasks w3 !! 1%nat = Some {| state := Cancelled; raw_message := "" |}.
Proof.
  refine (async_with_on_connected_provider_leaks 3 Scenario.silent Scenario.connected
            0 0 "" eq_refl eq_refl _ eq_refl eq_refl _ eq_refl eq_refl _).
  - cbn. lia.
  - cbn. lia.
  - lia.
Defined.

End FacadeFurther.
